(** * kana-dojo: the stats classification and aggregation engine

    A shallow embedding of the pure data-transformation layer of the
    Progress feature (src/features/Progress): accuracy calculation, mastery
    classification, content-type detection, mastery distribution, the derived
    queries over classified items, the gauntlet aggregation and the hook that
    loads it.

    Number model.  A TypeScript [number] is an IEEE binary64 value.  The
    counters of this code (correct, incorrect, total, session counts, streaks,
    times in milliseconds) are integers, and binary64 adds integers below 2^53
    without rounding: they are embedded as [Z].  A quotient of two counters
    (accuracy, completion rate, percentage) is embedded as an exact rational
    [Q].  Module [Binary64] embeds the same quotients a second time with the
    primitive binary64 floats of Rocq, which compute what JavaScript
    computes.  It settles what depends on rounding (a sum of three rounded
    percentages), states the threshold rules in the arithmetic of the code,
    and cross-checks the exact model on the counters the property tests
    draw.  The rounded quotient of two counters can only fall on the other
    side of a threshold than the exact one when the counters are of the order
    of 10^15, which no practice history reaches. *)

From Stdlib Require Import ZArith QArith Qminmax Floats Lia Lqa Bool List.
From Stdlib Require Import Sorting.Sorted Sorting.Permutation String.
From Stdlib Require Import Ascii DecimalString DecimalPos DecimalZ.
From stdpp Require Import base option gmap.
Import ListNotations.

Open Scope Z_scope.

(** ** Data model (types/stats.ts) *)

(** [ContentType = 'kana' | 'kanji' | 'vocabulary'] *)
Inductive ContentType : Type := kana | kanji | vocabulary.

(** [ContentFilter = 'all' | ContentType] *)
Inductive ContentFilter : Type :=
| all
| only (t : ContentType).

(** [MasteryLevel = 'mastered' | 'learning' | 'needs-practice'] *)
Inductive MasteryLevel : Type := mastered | learning | needs_practice.

Definition ContentType_eqb (a b : ContentType) : bool :=
  match a, b with
  | kana, kana | kanji, kanji | vocabulary, vocabulary => true
  | _, _ => false
  end.

Definition MasteryLevel_eqb (a b : MasteryLevel) : bool :=
  match a, b with
  | mastered, mastered | learning, learning
  | needs_practice, needs_practice => true
  | _, _ => false
  end.

(** A JavaScript string is a sequence of UTF-16 code units. *)
Definition code_unit := Z.
Definition jsstring := list code_unit.

(** [interface CharacterMasteryItem] *)
Record CharacterMasteryItem : Type := {
  character : jsstring;
  correct : Z;
  incorrect : Z;
  total : Z;
  accuracy : Q;
  masteryLevel : MasteryLevel;
  contentType : ContentType
}.

(** [interface MasteryDistribution]; the record is named after the
    interface and its fields carry a [d_] prefix because [mastered] and
    [learning] are already the constructors of [MasteryLevel]. *)
Record MasteryDistribution : Type := {
  d_mastered : Z;
  d_learning : Z;
  d_needsPractice : Z;
  d_total : Z
}.

(** ** lib/classifyCharacter.ts *)

Definition MASTERED_MIN_ATTEMPTS : Z := 10.
Definition MASTERED_MIN_ACCURACY : Q := 9 # 10.
Definition NEEDS_PRACTICE_MIN_ATTEMPTS : Z := 5.
Definition NEEDS_PRACTICE_MAX_ACCURACY : Q := 7 # 10.

(** [a < b] on rationals, as a boolean. *)
Definition Qlt_bool (a b : Q) : bool := negb (Qle_bool b a).

Definition classifyCharacter (correct incorrect : Z) : MasteryLevel :=
  let total := correct + incorrect in
  if total =? 0 then learning
  else
    let accuracy := (inject_Z correct / inject_Z total)%Q in
    if (MASTERED_MIN_ATTEMPTS <=? total)
       && Qle_bool MASTERED_MIN_ACCURACY accuracy
    then mastered
    else if (NEEDS_PRACTICE_MIN_ATTEMPTS <=? total)
            && Qlt_bool accuracy NEEDS_PRACTICE_MAX_ACCURACY
    then needs_practice
    else learning.

(** ** lib/calculateAccuracy.ts *)

Definition calculateAccuracy (correct incorrect : Z) : Q :=
  let total := correct + incorrect in
  if total =? 0 then 0%Q
  else ((inject_Z correct / inject_Z total) * 100)%Q.

(** ** lib/detectContentType.ts *)

Definition HIRAGANA_START : Z := 0x3040.
Definition HIRAGANA_END : Z := 0x309f.
Definition KATAKANA_START : Z := 0x30a0.
Definition KATAKANA_END : Z := 0x30ff.
Definition KANJI_START : Z := 0x4e00.
Definition KANJI_END : Z := 0x9faf.

Definition isHiragana (code : Z) : bool :=
  (HIRAGANA_START <=? code) && (code <=? HIRAGANA_END).

Definition isKatakana (code : Z) : bool :=
  (KATAKANA_START <=? code) && (code <=? KATAKANA_END).

Definition isKanji (code : Z) : bool :=
  (KANJI_START <=? code) && (code <=? KANJI_END).

Definition isKana (code : Z) : bool :=
  isHiragana code || isKatakana code.

(** [s.charCodeAt(i)]: the code unit at index [i]; JavaScript answers NaN
    out of range, here [None]. *)
Definition charCodeAt (s : jsstring) (i : nat) : option code_unit :=
  nth_error s i.

(** [!s] on a string: true exactly for the empty string. *)
Definition falsy (s : jsstring) : bool :=
  match s with [] => true | _ => false end.

Definition detectContentType (character : jsstring) : ContentType :=
  if falsy character || (Nat.eqb (List.length character) 0) then vocabulary
  else if Nat.ltb 1 (List.length character) then vocabulary
  else
    match charCodeAt character 0 with
    | Some code =>
        if isKana code then kana
        else if isKanji code then kanji
        else kanji
    | None =>
        (* NaN fails both range tests and falls through to the default *)
        kanji
    end.

(** ** Array primitives of the JavaScript runtime

    [Array.prototype.sort] with a comparison function orders [a] before [b]
    when the function answers a negative number and after it when the answer
    is positive; since ES2019 the sort is stable, so for a consistent
    comparison function the result is fixed whatever algorithm the engine
    runs.  A stable insertion sort computes it: folding from the right, an
    element is put in front of the first element it does not have to follow. *)

Fixpoint insert_by {A : Type} (cmp : A -> A -> Q) (x : A) (l : list A)
  : list A :=
  match l with
  | [] => [x]
  | y :: l' =>
      if Qle_bool (cmp x y) 0 then x :: y :: l'
      else y :: insert_by cmp x l'
  end.

Definition Array_sort {A : Type} (cmp : A -> A -> Q) (l : list A) : list A :=
  fold_right (insert_by cmp) [] l.

(** The index arithmetic of [Array.prototype.slice]: a negative index counts
    from the end, and both ends are clamped to the array. *)
Definition clamp_index (len i : Z) : Z :=
  if i <? 0 then Z.max (len + i) 0 else Z.min i len.

Definition Array_slice {A : Type} (l : list A) (start final : Z) : list A :=
  let len := Z.of_nat (List.length l) in
  let k := clamp_index len start in
  let e := clamp_index len final in
  firstn (Z.to_nat (Z.max (e - k) 0)) (skipn (Z.to_nat k) l).

(** [Math.max] of three counters. *)
Definition Math_max3 (a b c : Z) : Z := Z.max (Z.max a b) c.

(** [Math.min(...l)] of a non-empty array, given as head and tail. *)
Definition Math_min (t : Z) (ts : list Z) : Z := fold_left Z.min ts t.

(** ** hooks/useStatsAggregator.ts, the pure part *)

Definition createDefaultMasteryDistribution : MasteryDistribution :=
  {| d_mastered := 0; d_learning := 0; d_needsPractice := 0; d_total := 0 |}.

(** One iteration of the [for ... of] loop: the [switch] on the level. *)
Definition count_item (distribution : MasteryDistribution)
  (item : CharacterMasteryItem) : MasteryDistribution :=
  match masteryLevel item with
  | mastered =>
      {| d_mastered := d_mastered distribution + 1;
         d_learning := d_learning distribution;
         d_needsPractice := d_needsPractice distribution;
         d_total := d_total distribution |}
  | learning =>
      {| d_mastered := d_mastered distribution;
         d_learning := d_learning distribution + 1;
         d_needsPractice := d_needsPractice distribution;
         d_total := d_total distribution |}
  | needs_practice =>
      {| d_mastered := d_mastered distribution;
         d_learning := d_learning distribution;
         d_needsPractice := d_needsPractice distribution + 1;
         d_total := d_total distribution |}
  end.

Definition calculateMasteryDistribution (items : list CharacterMasteryItem)
  : MasteryDistribution :=
  let distribution :=
    {| d_mastered := 0; d_learning := 0; d_needsPractice := 0;
       d_total := Z.of_nat (List.length items) |} in
  fold_left count_item items distribution.

(** [interface RawCharacterMastery] *)
Record RawCharacterMastery : Type := {
  raw_correct : Z;
  raw_incorrect : Z
}.

(** [Record<string, {correct, incorrect}>] read through [Object.entries]:
    the entries in the order [Object.entries] yields them. *)
Definition RawMastery := list (jsstring * RawCharacterMastery).

Definition transformCharacterMastery (rawMastery : RawMastery)
  : list CharacterMasteryItem :=
  List.map
    (fun '(character, data) =>
       let total := raw_correct data + raw_incorrect data in
       let accuracy := calculateAccuracy (raw_correct data) (raw_incorrect data) in
       let masteryLevel := classifyCharacter (raw_correct data) (raw_incorrect data) in
       let contentType := detectContentType character in
       {| character := character;
          correct := raw_correct data;
          incorrect := raw_incorrect data;
          total := total;
          accuracy := accuracy;
          masteryLevel := masteryLevel;
          contentType := contentType |})
    rawMastery.

Definition filterCharacterMasteryByType (items : list CharacterMasteryItem)
  (filter : ContentFilter) : list CharacterMasteryItem :=
  match filter with
  | all => items
  | only t =>
      List.filter (fun item => ContentType_eqb (contentType item) t) items
  end.

(** The two comparison functions handed to [sort]. *)
Definition by_accuracy_asc (a b : CharacterMasteryItem) : Q :=
  (accuracy a - accuracy b)%Q.

Definition by_accuracy_desc (a b : CharacterMasteryItem) : Q :=
  (accuracy b - accuracy a)%Q.

(** [count] defaults to 5 and [minAttempts] to 5 at the call sites that
    leave them out. *)
Definition getTopDifficultCharacters (items : list CharacterMasteryItem)
  (count minAttempts : Z) : list CharacterMasteryItem :=
  Array_slice
    (Array_sort by_accuracy_asc
       (List.filter (fun item => minAttempts <=? total item) items))
    0 count.

Definition getTopMasteredCharacters (items : list CharacterMasteryItem)
  (count : Z) : list CharacterMasteryItem :=
  Array_slice
    (Array_sort by_accuracy_desc
       (List.filter (fun item => MasteryLevel_eqb (masteryLevel item) mastered)
          items))
    0 count.

(** ** components/stats/CharacterMasteryPanel.tsx *)

(** [sortBy: 'difficult' | 'mastered'] *)
Inductive SortBy : Type := difficult | best_mastered.

Definition getTopCharacters (characters : list CharacterMasteryItem)
  (count : Z) (sortBy : SortBy) : list CharacterMasteryItem :=
  let filtered :=
    List.filter
      (fun char =>
         match sortBy with
         | difficult => 5 <=? total char
         | best_mastered => MasteryLevel_eqb (masteryLevel char) mastered
         end)
      characters in
  let sorted :=
    Array_sort
      (fun a b =>
         match sortBy with
         | difficult => (accuracy a - accuracy b)%Q
         | best_mastered => (accuracy b - accuracy a)%Q
         end)
      filtered in
  Array_slice sorted 0 count.

(** ** components/stats/MasteryDistributionChart.tsx (exact arithmetic) *)

Definition calculatePercentage (value total : Z) : Q :=
  if total =? 0 then 0%Q
  else ((inject_Z value / inject_Z total) * 100)%Q.

(** The numeric part of the value [getMasteryDistributionDisplayValues]
    returns; the three [toFixed(1)] strings are left out. *)
Record DisplayValues : Type := {
  v_mastered : Z;
  v_learning : Z;
  v_needsPractice : Z;
  v_total : Z;
  masteredPercent : Q;
  learningPercent : Q;
  needsPracticePercent : Q;
  percentageSum : Q
}.

Definition getMasteryDistributionDisplayValues
  (distribution : MasteryDistribution) : DisplayValues :=
  let mastered := d_mastered distribution in
  let learning := d_learning distribution in
  let needsPractice := d_needsPractice distribution in
  let total := d_total distribution in
  let masteredPercent := calculatePercentage mastered total in
  let learningPercent := calculatePercentage learning total in
  let needsPracticePercent := calculatePercentage needsPractice total in
  {| v_mastered := mastered;
     v_learning := learning;
     v_needsPractice := needsPractice;
     v_total := total;
     masteredPercent := masteredPercent;
     learningPercent := learningPercent;
     needsPracticePercent := needsPracticePercent;
     percentageSum :=
       (masteredPercent + learningPercent + needsPracticePercent)%Q |}.

(** ** Gauntlet statistics *)

(** Modelled from the spec: the value [getOverallStats] of
    [@/shared/lib/gauntletStats] resolves to.  That module is not part of the
    sources at hand; the fields are the ones [loadGauntletStats] reads and
    section 6 of the specification lists. *)
Record GauntletTypeStats : Type := {
  s_totalSessions : Z;
  s_completedSessions : Z;
  s_totalCorrect : Z;
  s_totalWrong : Z;
  s_bestStreak : Z;
  s_fastestTime : option Z
}.

(** [interface GauntletOverallStats] *)
Record GauntletOverallStats : Type := {
  g_totalSessions : Z;
  g_completedSessions : Z;
  g_completionRate : Q;
  g_totalCorrect : Z;
  g_totalWrong : Z;
  g_bestStreak : Z;
  g_fastestTime : option Z;
  g_accuracy : Q
}.

(** [interface TimedModeStats] *)
Record TimedModeStats : Type := {
  t_correct : Z;
  t_wrong : Z;
  t_streak : Z;
  t_bestStreak : Z;
  t_accuracy : Q
}.

(** [interface AchievementSummary] *)
Record AchievementSummary : Type := {
  totalPoints : Z;
  level : Z;
  unlockedCount : Z;
  totalAchievements : Z
}.

(** [interface AggregatedStats] *)
Record AggregatedStats : Type := {
  totalSessions : Z;
  totalCorrect : Z;
  totalIncorrect : Z;
  overallAccuracy : Q;
  bestStreak : Z;
  uniqueCharactersLearned : Z;
  characterMastery : list CharacterMasteryItem;
  masteryDistribution : MasteryDistribution;
  timedKana : TimedModeStats;
  timedKanji : TimedModeStats;
  timedVocabulary : TimedModeStats;
  gauntlet : option GauntletOverallStats;
  achievements : AchievementSummary
}.

(** *** Promises, exceptions and the cells of the hook

    An awaited promise either fulfils with a value or rejects with a reason;
    a rejection awaited inside [try] is an exception. *)
Inductive outcome (A : Type) : Type :=
| fulfilled (a : A)
| rejected (reason : string).
Arguments fulfilled {A} a.
Arguments rejected {A} reason.

(** The three [useState] cells of [useStatsAggregator], and what was written
    to the console. *)
Record HookState : Type := {
  gauntletStats : option GauntletOverallStats;
  isLoading : bool;
  error : option string;
  console : list string
}.

(** A computation that reads and writes the cells and may throw. *)
Definition Async (A : Type) : Type := HookState -> outcome A * HookState.

Definition ret {A : Type} (a : A) : Async A := fun s => (fulfilled a, s).

Definition throw {A : Type} (reason : string) : Async A :=
  fun s => (rejected reason, s).

Definition bind {A B : Type} (m : Async A) (k : A -> Async B) : Async B :=
  fun s =>
    match m s with
    | (fulfilled a, s') => k a s'
    | (rejected e, s') => (rejected e, s')
    end.

(** [await p] *)
Definition await {A : Type} (p : outcome A) : Async A := fun s => (p, s).

(** [try { body } catch (e) { handler }] *)
Definition try_catch {A : Type} (body : Async A) (handler : string -> Async A)
  : Async A :=
  fun s =>
    match body s with
    | (fulfilled a, s') => (fulfilled a, s')
    | (rejected e, s') => handler e s'
    end.

(** [try { body } catch (e) { handler } finally { final }]: [final] runs on
    every path, and what the handler throws still propagates after it. *)
Definition try_catch_finally (body : Async unit) (handler : string -> Async unit)
  (final : Async unit) : Async unit :=
  fun s =>
    match try_catch body handler s with
    | (fulfilled _, s') => final s'
    | (rejected e, s') =>
        match final s' with
        | (fulfilled _, s'') => (rejected e, s'')
        | (rejected e', s'') => (rejected e', s'')
        end
    end.

Declare Scope async_scope.
Delimit Scope async_scope with async.
Notation "x <- m ;; k" := (bind m (fun x => k))
  (at level 100, m at next level, right associativity) : async_scope.
Notation "m ;;; k" := (bind m (fun _ => k))
  (at level 100, right associativity) : async_scope.

Definition setGauntletStats (v : option GauntletOverallStats) : Async unit :=
  fun s =>
    (fulfilled tt,
     {| gauntletStats := v; isLoading := isLoading s; error := error s;
        console := console s |}).

Definition setIsLoading (v : bool) : Async unit :=
  fun s =>
    (fulfilled tt,
     {| gauntletStats := gauntletStats s; isLoading := v; error := error s;
        console := console s |}).

Definition setError (v : option string) : Async unit :=
  fun s =>
    (fulfilled tt,
     {| gauntletStats := gauntletStats s; isLoading := isLoading s; error := v;
        console := console s |}).

(** [console.warn] and [console.error]: the line is appended to the log. *)
Definition console_log (line : string) : Async unit :=
  fun s =>
    (fulfilled tt,
     {| gauntletStats := gauntletStats s; isLoading := isLoading s;
        error := error s; console := console s ++ [line] |}).

(** [Promise.all] of three promises: fulfils with the three values when all
    fulfil, and rejects as soon as one rejects. *)
Definition Promise_all3 {A : Type} (p1 p2 p3 : outcome A)
  : outcome (A * A * A) :=
  match p1, p2, p3 with
  | fulfilled a, fulfilled b, fulfilled c => fulfilled (a, b, c)
  | rejected e, _, _ => rejected e
  | _, rejected e, _ => rejected e
  | _, _, rejected e => rejected e
  end.

(** [[a, b, c].filter(t => t !== null)] on nullable numbers. *)
Definition non_null (l : list (option Z)) : list Z :=
  List.flat_map (fun t => match t with Some v => [v] | None => [] end) l.

Section GauntletSource.

(** [getOverallStats], the persistence collaborator: one promise per
    content type. *)
Variable getOverallStats : ContentType -> outcome GauntletTypeStats.

Definition loadGauntletStats : Async (option GauntletOverallStats) :=
  try_catch
    (stats <- await (Promise_all3 (getOverallStats kana)
                       (getOverallStats kanji)
                       (getOverallStats vocabulary)) ;;
     let '(kanaStats, kanjiStats, vocabStats) := stats in
     let totalSessions :=
       s_totalSessions kanaStats + s_totalSessions kanjiStats
       + s_totalSessions vocabStats in
     if totalSessions =? 0 then ret None
     else
       let completedSessions :=
         s_completedSessions kanaStats + s_completedSessions kanjiStats
         + s_completedSessions vocabStats in
       let totalCorrect :=
         s_totalCorrect kanaStats + s_totalCorrect kanjiStats
         + s_totalCorrect vocabStats in
       let totalWrong :=
         s_totalWrong kanaStats + s_totalWrong kanjiStats
         + s_totalWrong vocabStats in
       let bestStreak :=
         Math_max3 (s_bestStreak kanaStats) (s_bestStreak kanjiStats)
           (s_bestStreak vocabStats) in
       let fastestTimes :=
         non_null [s_fastestTime kanaStats; s_fastestTime kanjiStats;
                   s_fastestTime vocabStats] in
       let fastestTime :=
         match fastestTimes with
         | t :: ts => Some (Math_min t ts)
         | [] => None
         end in
       let completionRate :=
         if 0 <? totalSessions
         then ((inject_Z completedSessions / inject_Z totalSessions) * 100)%Q
         else 0%Q in
       let accuracy := calculateAccuracy totalCorrect totalWrong in
       ret (Some {| g_totalSessions := totalSessions;
                    g_completedSessions := completedSessions;
                    g_completionRate := completionRate;
                    g_totalCorrect := totalCorrect;
                    g_totalWrong := totalWrong;
                    g_bestStreak := bestStreak;
                    g_fastestTime := fastestTime;
                    g_accuracy := accuracy |}))%async
    (fun error =>
       (console_log "[useStatsAggregator] Failed to load gauntlet stats:" ;;;
        ret None)%async).

Definition refreshGauntletStats : Async unit :=
  (setIsLoading true ;;;
   setError None ;;;
   try_catch_finally
     (stats <- loadGauntletStats ;;
      setGauntletStats stats)
     (fun err =>
        setError (Some "Failed to load gauntlet stats"%string) ;;;
        console_log "[useStatsAggregator] Error loading gauntlet stats:")
     (setIsLoading false))%async.

End GauntletSource.

(** *** The stores the hook reads *)

(** [allTimeStats] of [useStatsStore]. *)
Record AllTimeStats : Type := {
  at_totalSessions : Z;
  at_totalCorrect : Z;
  at_totalIncorrect : Z;
  at_bestStreak : Z;
  at_characterMastery : RawMastery
}.

(** What the hook selects from [useStatsStore] and [useAchievementStore];
    [ACHIEVEMENTS_length] stands for [ACHIEVEMENTS.length], the size of a
    catalogue defined outside the sources at hand, and
    [unlockedAchievements] for the keys of the unlocked record. *)
Record Stores : Type := {
  allTimeStats : AllTimeStats;
  timedCorrectAnswers : Z;
  timedWrongAnswers : Z;
  timedStreak : Z;
  timedBestStreak : Z;
  timedKanjiCorrectAnswers : Z;
  timedKanjiWrongAnswers : Z;
  timedKanjiStreak : Z;
  timedKanjiBestStreak : Z;
  timedVocabCorrectAnswers : Z;
  timedVocabWrongAnswers : Z;
  timedVocabStreak : Z;
  timedVocabBestStreak : Z;
  achievementPoints : Z;
  achievementLevel : Z;
  unlockedAchievements : list jsstring;
  ACHIEVEMENTS_length : Z
}.

(** [interface StatsAggregatorState], without the [refreshGauntletStats]
    callback. *)
Record StatsAggregatorState : Type := {
  stats : AggregatedStats;
  r_isLoading : bool;
  r_error : option string
}.

(** One render of [useStatsAggregator]: the memoised values are functions of
    the store selections and of the cells. *)
Definition useStatsAggregator (stores : Stores) (cells : HookState)
  : StatsAggregatorState :=
  let allTimeStats := allTimeStats stores in
  let characterMastery :=
    transformCharacterMastery (at_characterMastery allTimeStats) in
  let masteryDistribution := calculateMasteryDistribution characterMastery in
  let timedKana :=
    {| t_correct := timedCorrectAnswers stores;
       t_wrong := timedWrongAnswers stores;
       t_streak := timedStreak stores;
       t_bestStreak := timedBestStreak stores;
       t_accuracy := calculateAccuracy (timedCorrectAnswers stores)
                       (timedWrongAnswers stores) |} in
  let timedKanji :=
    {| t_correct := timedKanjiCorrectAnswers stores;
       t_wrong := timedKanjiWrongAnswers stores;
       t_streak := timedKanjiStreak stores;
       t_bestStreak := timedKanjiBestStreak stores;
       t_accuracy := calculateAccuracy (timedKanjiCorrectAnswers stores)
                       (timedKanjiWrongAnswers stores) |} in
  let timedVocabulary :=
    {| t_correct := timedVocabCorrectAnswers stores;
       t_wrong := timedVocabWrongAnswers stores;
       t_streak := timedVocabStreak stores;
       t_bestStreak := timedVocabBestStreak stores;
       t_accuracy := calculateAccuracy (timedVocabCorrectAnswers stores)
                       (timedVocabWrongAnswers stores) |} in
  let overallAccuracy :=
    calculateAccuracy (at_totalCorrect allTimeStats)
      (at_totalIncorrect allTimeStats) in
  {| stats :=
       {| totalSessions := at_totalSessions allTimeStats;
          totalCorrect := at_totalCorrect allTimeStats;
          totalIncorrect := at_totalIncorrect allTimeStats;
          overallAccuracy := overallAccuracy;
          bestStreak := at_bestStreak allTimeStats;
          uniqueCharactersLearned := Z.of_nat (List.length characterMastery);
          characterMastery := characterMastery;
          masteryDistribution := masteryDistribution;
          timedKana := timedKana;
          timedKanji := timedKanji;
          timedVocabulary := timedVocabulary;
          gauntlet := gauntletStats cells;
          achievements :=
            {| totalPoints := achievementPoints stores;
               level := achievementLevel stores;
               unlockedCount :=
                 Z.of_nat (List.length (unlockedAchievements stores));
               totalAchievements := ACHIEVEMENTS_length stores |} |};
     r_isLoading := isLoading cells;
     r_error := error cells |}.

(** ** The queries over arrays in the store

    JavaScript arrays are objects: [filter], [slice] and the spread
    [[...a]] allocate a new array, [sort] reorders the array it is called on
    and returns that same array.  The queries are embedded a second time over
    a store of arrays, to tell what they do to the array they are given. *)
Module Heap.

Abbreviation ref := positive.

Abbreviation store := (gmap positive (list CharacterMasteryItem)).

(** A computation over the store. *)
Definition St (A : Type) : Type := store -> A * store.

Definition ret {A : Type} (a : A) : St A := fun h => (a, h).

Definition bind {A B : Type} (m : St A) (k : A -> St B) : St B :=
  fun h => let '(a, h') := m h in k a h'.

Declare Scope heap_scope.
Delimit Scope heap_scope with heap.
Notation "x <- m ;; k" := (bind m (fun x => k))
  (at level 100, m at next level, right associativity) : heap_scope.

(** The elements of the array at [r]. *)
Definition read (r : ref) : St (list CharacterMasteryItem) :=
  fun h => (default [] (h !! r), h).

(** A new array with the elements [l], at a reference not in use. *)
Definition alloc (l : list CharacterMasteryItem) : St ref :=
  fun h => let r := fresh (dom h) in (r, <[r := l]> h).

(** [a.filter(p)] *)
Definition filter (p : CharacterMasteryItem -> bool) (a : ref) : St ref :=
  (l <- read a ;; alloc (List.filter p l))%heap.

(** [[...a]] *)
Definition spread (a : ref) : St ref :=
  (l <- read a ;; alloc l)%heap.

(** [a.sort(cmp)]: in place, answers [a] itself. *)
Definition sort (cmp : CharacterMasteryItem -> CharacterMasteryItem -> Q)
  (a : ref) : St ref :=
  fun h => (a, <[a := Array_sort cmp (default [] (h !! a))]> h).

(** [a.slice(start, final)] *)
Definition slice (a : ref) (start final : Z) : St ref :=
  (l <- read a ;; alloc (Array_slice l start final))%heap.

Definition filterCharacterMasteryByType (items : ref)
  (filter_ : ContentFilter) : St ref :=
  match filter_ with
  | all => ret items
  | only t =>
      filter (fun item => ContentType_eqb (contentType item) t) items
  end.

Definition getTopDifficultCharacters (items : ref) (count minAttempts : Z)
  : St ref :=
  (filtered <- filter (fun item => minAttempts <=? total item) items ;;
   sorted <- sort by_accuracy_asc filtered ;;
   slice sorted 0 count)%heap.

Definition getTopMasteredCharacters (items : ref) (count : Z) : St ref :=
  (filtered <- filter
     (fun item => MasteryLevel_eqb (masteryLevel item) mastered) items ;;
   sorted <- sort by_accuracy_desc filtered ;;
   slice sorted 0 count)%heap.

Definition getTopCharacters (characters : ref) (count : Z) (sortBy : SortBy)
  : St ref :=
  (filtered <- filter
     (fun char =>
        match sortBy with
        | difficult => 5 <=? total char
        | best_mastered => MasteryLevel_eqb (masteryLevel char) mastered
        end) characters ;;
   copy <- spread filtered ;;
   sorted <- sort
     (fun a b =>
        match sortBy with
        | difficult => (accuracy a - accuracy b)%Q
        | best_mastered => (accuracy b - accuracy a)%Q
        end) copy ;;
   slice sorted 0 count)%heap.

(** Every array of [h] is still there in [h'], with the same elements in
    the same order. *)
Definition preserved (h h' : store) : Prop :=
  forall r l, h !! r = Some l -> h' !! r = Some l.

(** Running [q] from [h] changes no array of [h], and the array it
    returns holds [result]. *)
Definition keeps_and_returns (h : store) (q : St ref)
  (result : list CharacterMasteryItem) : Prop :=
  preserved h (snd (q h)) /\ snd (q h) !! fst (q h) = Some result.

End Heap.

(** ** The quotients in binary64

    The same functions with the arithmetic JavaScript runs: [/], [*], [+] and
    the comparisons of IEEE 754 binary64, round to nearest even. *)
Module Binary64.

(** The binary64 value of an integer counter (nearest, ties to even).
    Below 2^53 the conversion is exact and the machine integer gives it
    directly. *)
Definition of_Z (z : Z) : float :=
  if (0 <=? z) && (z <? 9007199254740992)
  then PrimFloat.of_uint63 (Uint63.of_Z z)
  else SF2Prim (binary_normalize prec emax z 0 false).

Definition calculatePercentage (value total : float) : float :=
  if (total =? 0)%float then 0%float
  else ((value / total) * 100)%float.

Record DisplayValues : Type := {
  masteredPercent : float;
  learningPercent : float;
  needsPracticePercent : float;
  percentageSum : float
}.

Definition getMasteryDistributionDisplayValues
  (distribution : MasteryDistribution) : DisplayValues :=
  let mastered := of_Z (d_mastered distribution) in
  let learning := of_Z (d_learning distribution) in
  let needsPractice := of_Z (d_needsPractice distribution) in
  let total := of_Z (d_total distribution) in
  let masteredPercent := calculatePercentage mastered total in
  let learningPercent := calculatePercentage learning total in
  let needsPracticePercent := calculatePercentage needsPractice total in
  {| masteredPercent := masteredPercent;
     learningPercent := learningPercent;
     needsPracticePercent := needsPracticePercent;
     percentageSum :=
       (masteredPercent + learningPercent + needsPracticePercent)%float |}.

Definition calculateAccuracy (correct incorrect : float) : float :=
  let total := (correct + incorrect)%float in
  if (total =? 0)%float then 0%float
  else ((correct / total) * 100)%float.

(** The literals [0.9] and [0.7] are not binary64 values; JavaScript reads
    them as the nearest ones, written here in hexadecimal. *)
Definition MASTERED_MIN_ATTEMPTS : float := 10%float.
Definition MASTERED_MIN_ACCURACY : float := 0x1.ccccccccccccdp-1%float.
Definition NEEDS_PRACTICE_MIN_ATTEMPTS : float := 5%float.
Definition NEEDS_PRACTICE_MAX_ACCURACY : float := 0x1.6666666666666p-1%float.

Definition classifyCharacter (correct incorrect : float) : MasteryLevel :=
  let total := (correct + incorrect)%float in
  if (total =? 0)%float then learning
  else
    let accuracy := (correct / total)%float in
    if (MASTERED_MIN_ATTEMPTS <=? total)%float
       && (MASTERED_MIN_ACCURACY <=? accuracy)%float
    then mastered
    else if (NEEDS_PRACTICE_MIN_ATTEMPTS <=? total)%float
            && (accuracy <? NEEDS_PRACTICE_MAX_ACCURACY)%float
    then needs_practice
    else learning.

(** *** Checks by enumeration *)


(** The integers 0, 1, ..., n - 1. *)
Definition below (n : nat) : list Z := List.map Z.of_nat (seq 0 n).



End Binary64.

(** The binary64 classifier agrees with the exact one on the counters [c],
    [i]. *)
Definition classify_agrees (c i : Z) : bool :=
  MasteryLevel_eqb
    (Binary64.classifyCharacter (Binary64.of_Z c) (Binary64.of_Z i))
    (classifyCharacter c i).

(** [f] holds of every pair of counters from 0 to [B]. *)
Definition forallb_square (f : Z -> Z -> bool) (B : nat) : bool :=
  let range := Binary64.below (S B) in
  forallb (fun c => forallb (f c) range) range.

(** ** Sample data

    The counters of the test suites: three kana and a kanji, one word. *)
Definition sample_raw : RawMastery :=
  [ ([0x3042], {| raw_correct := 10; raw_incorrect := 0 |});
    ([0x3044], {| raw_correct := 3; raw_incorrect := 2 |});
    ([0x3046], {| raw_correct := 1; raw_incorrect := 9 |});
    ([0x65E5], {| raw_correct := 2; raw_incorrect := 1 |});
    ([0x65E5; 0x672C], {| raw_correct := 6; raw_incorrect := 4 |}) ].

Definition sample_items : list CharacterMasteryItem :=
  transformCharacterMastery sample_raw.

(** The kanji of the sample: three attempts only. *)
Definition sample_kanji : CharacterMasteryItem :=
  {| character := [0x65E5]; correct := 2; incorrect := 1; total := 3;
     accuracy := calculateAccuracy 2 1;
     masteryLevel := classifyCharacter 2 1;
     contentType := detectContentType [0x65E5] |}.

(** ** Orders used in the statements *)

(** [a] comes no later than [b] when ordered by [key]. *)
Definition key_le {A : Type} (key : A -> Q) (a b : A) : Prop :=
  (key a <= key b)%Q.

(** Ascending and descending accuracy. *)
Definition accuracy_le (a b : CharacterMasteryItem) : Prop :=
  (accuracy a <= accuracy b)%Q.

Definition accuracy_ge (a b : CharacterMasteryItem) : Prop :=
  (accuracy b <= accuracy a)%Q.

(** A store with the sample items at reference 1. *)
Definition sample_store : gmap positive (list CharacterMasteryItem) :=
  {[ 1%positive := sample_items ]}.

(** ** Well-formed gauntlet input *)

(** What the persistence collaborator guarantees of a per-type record:
    counters are not negative and no more sessions are completed than were
    played. *)
Definition valid_type_stats (x : GauntletTypeStats) : Prop :=
  0 <= s_completedSessions x <= s_totalSessions x
  /\ 0 <= s_totalCorrect x
  /\ 0 <= s_totalWrong x
  /\ 0 <= s_bestStreak x.

(** [m] is the least of the times that are not null. *)
Definition least_non_null (times : list (option Z)) (m : Z) : Prop :=
  In (Some m) times /\ forall t, In (Some t) times -> m <= t.

(** A source for which every fetch fulfils, and one whose kana fetch
    rejects. *)
Definition sample_type_stats (n c : Z) (t : option Z) : GauntletTypeStats :=
  {| s_totalSessions := n; s_completedSessions := c;
     s_totalCorrect := 10 * n; s_totalWrong := n;
     s_bestStreak := n + c; s_fastestTime := t |}.

Definition source_ok (t : ContentType) : outcome GauntletTypeStats :=
  match t with
  | kana => fulfilled (sample_type_stats 4 3 (Some 61000))
  | kanji => fulfilled (sample_type_stats 0 0 None)
  | vocabulary => fulfilled (sample_type_stats 4 1 (Some 45000))
  end.

Definition source_kana_fails (t : ContentType) : outcome GauntletTypeStats :=
  match t with
  | kana => rejected "localforage: storage unavailable"
  | _ => source_ok t
  end.

Definition initial_cells : HookState :=
  {| gauntletStats := None; isLoading := true; error := None;
     console := [] |}.

(** Store selections for the sample. *)
Definition sample_stores : Stores :=
  {| allTimeStats :=
       {| at_totalSessions := 12; at_totalCorrect := 22;
          at_totalIncorrect := 16; at_bestStreak := 7;
          at_characterMastery := sample_raw |};
     timedCorrectAnswers := 30; timedWrongAnswers := 10;
     timedStreak := 2; timedBestStreak := 9;
     timedKanjiCorrectAnswers := 0; timedKanjiWrongAnswers := 0;
     timedKanjiStreak := 0; timedKanjiBestStreak := 0;
     timedVocabCorrectAnswers := 5; timedVocabWrongAnswers := 15;
     timedVocabStreak := 0; timedVocabBestStreak := 3;
     achievementPoints := 150; achievementLevel := 2;
     unlockedAchievements := [[0x66; 0x69; 0x72; 0x73; 0x74]];
     ACHIEVEMENTS_length := 40 |}.

(** The snapshot without its gauntlet part. *)
Definition other_parts (a : AggregatedStats) :=
  (totalSessions a, totalCorrect a, totalIncorrect a, overallAccuracy a,
   bestStreak a, uniqueCharactersLearned a, characterMastery a,
   masteryDistribution a, timedKana a, timedKanji a, timedVocabulary a,
   achievements a).

(** Some fetch of the source rejects. *)
Definition some_fetch_rejects
  (getOverallStats : ContentType -> outcome GauntletTypeStats) : Prop :=
  exists t reason, getOverallStats t = rejected reason.



(** ** The rest of the stats code

    The functions of the same files that stand beside the ones above. *)

(** *** lib/detectContentType.ts: [filterByContentType] *)

Definition filterByContentType (characters : list jsstring)
  (contentType : ContentType) : list jsstring :=
  List.filter
    (fun char => ContentType_eqb (detectContentType char) contentType)
    characters.

(** *** components/stats/CharacterMasteryPanel.tsx: the memoised data *)

(** [Record<MasteryLevel, CharacterMasteryItem[]>], one array per level. *)
Record Grouped : Type := {
  grp_mastered : list CharacterMasteryItem;
  grp_learning : list CharacterMasteryItem;
  grp_needs_practice : list CharacterMasteryItem
}.

(** [grouped[char.masteryLevel].push(char)] *)
Definition push_group (grouped : Grouped) (char : CharacterMasteryItem)
  : Grouped :=
  match masteryLevel char with
  | mastered =>
      {| grp_mastered := grp_mastered grouped ++ [char];
         grp_learning := grp_learning grouped;
         grp_needs_practice := grp_needs_practice grouped |}
  | learning =>
      {| grp_mastered := grp_mastered grouped;
         grp_learning := grp_learning grouped ++ [char];
         grp_needs_practice := grp_needs_practice grouped |}
  | needs_practice =>
      {| grp_mastered := grp_mastered grouped;
         grp_learning := grp_learning grouped;
         grp_needs_practice := grp_needs_practice grouped ++ [char] |}
  end.

(** The panel computes [transformCharacterData], which is
    [transformCharacterMastery] under another name. *)
Definition transformCharacterData (characterMastery : RawMastery)
  : list CharacterMasteryItem :=
  List.map
    (fun '(character, stats) =>
       let total := raw_correct stats + raw_incorrect stats in
       let accuracy :=
         calculateAccuracy (raw_correct stats) (raw_incorrect stats) in
       let masteryLevel :=
         classifyCharacter (raw_correct stats) (raw_incorrect stats) in
       let contentType := detectContentType character in
       {| character := character;
          correct := raw_correct stats;
          incorrect := raw_incorrect stats;
          total := total;
          accuracy := accuracy;
          masteryLevel := masteryLevel;
          contentType := contentType |})
    characterMastery.

(** What the [useMemo] of [CharacterMasteryPanel] returns. *)
Record PanelData : Type := {
  filteredCharacters : list CharacterMasteryItem;
  topDifficult : list CharacterMasteryItem;
  topMastered : list CharacterMasteryItem;
  groupedByMastery : Grouped
}.

Definition CharacterMasteryPanel_data (characterMastery : RawMastery)
  (contentFilter : ContentFilter) : PanelData :=
  let allCharacters := transformCharacterData characterMastery in
  let filtered :=
    match contentFilter with
    | all => allCharacters
    | only t =>
        List.filter (fun char => ContentType_eqb (contentType char) t)
          allCharacters
    end in
  let difficult_ := getTopCharacters filtered 5 difficult in
  let mastered_ := getTopCharacters filtered 5 best_mastered in
  let grouped :=
    fold_left push_group filtered
      {| grp_mastered := []; grp_learning := []; grp_needs_practice := [] |} in
  {| filteredCharacters := filtered;
     topDifficult := difficult_;
     topMastered := mastered_;
     groupedByMastery := grouped |}.

(** *** components/stats/GauntletStatsPanel.tsx *)

(** [String(n)] of an integer that a number holds exactly: its decimal
    digits, with a minus sign when negative. *)
Definition Number_toString (z : Z) : string :=
  NilZero.string_of_int (Z.to_int z).

(** [Math.floor(ms / 1000)] and [Math.floor(seconds / 60)] are floor
    divisions: for such an integer the rounded quotient is off by at most
    2^-10 and the exact one, unless whole, is at least 1/1000 away from the
    next whole number, so the floor is that of the exact quotient.  [%] is the remainder that
    takes the sign of the dividend. *)
Definition formatTime (ms : option Z) : string :=
  match ms with
  | None => "--"
  | Some ms =>
      let seconds := ms / 1000 in
      let minutes := seconds / 60 in
      let remainingSeconds := Z.rem seconds 60 in
      if 0 <? minutes
      then (Number_toString minutes ++ "m "
            ++ Number_toString remainingSeconds ++ "s")%string
      else (Number_toString seconds ++ "s")%string
  end.

(** What the panel renders below its header. *)
Inductive PanelView : Type :=
| LoadingSkeleton
| EmptyState
| StatsGrid (stats : GauntletOverallStats).

(** [hasData = stats && stats.totalSessions > 0], and the two conditionals
    of the panel body. *)
Definition GauntletStatsPanel (stats : option GauntletOverallStats)
  (isLoading : bool) : PanelView :=
  let hasData :=
    match stats with
    | Some g => 0 <? g_totalSessions g
    | None => false
    end in
  if isLoading then LoadingSkeleton
  else if negb hasData then EmptyState
  else
    match stats with
    | Some g => StatsGrid g
    | None => EmptyState
    end.

(** *** components/stats/StatsPage.tsx *)

(** The gauntlet panel inside [StatsPage], if the page shows it.  With
    [hasData = stats.totalSessions > 0 || stats.uniqueCharactersLearned > 0]
    false the page shows its own empty state and no panel; otherwise it
    hands the hook's gauntlet value and loading flag to the panel. *)
Definition StatsPage_gauntlet (state : StatsAggregatorState)
  : option PanelView :=
  let hasData :=
    (0 <? totalSessions (stats state))
    || (0 <? uniqueCharactersLearned (stats state)) in
  if negb hasData then None
  else Some (GauntletStatsPanel (gauntlet (stats state)) (r_isLoading state)).

(** *** Statements *)

(** The per-type record satisfies [valid_type_stats] and its fastest time,
    if any, is not negative; the same for the combined record. *)
Definition valid_overall_stats (g : GauntletOverallStats) : Prop :=
  0 <= g_completedSessions g <= g_totalSessions g
  /\ 0 <= g_totalCorrect g
  /\ 0 <= g_totalWrong g
  /\ 0 <= g_bestStreak g.


(** The items of [l] at level [lv], in order. *)
Definition at_level (lv : MasteryLevel) (l : list CharacterMasteryItem)
  : list CharacterMasteryItem :=
  List.filter (fun item => MasteryLevel_eqb (masteryLevel item) lv) l.


(** A source whose three fetches fulfil. *)
Definition source_of (k j v : GauntletTypeStats) (t : ContentType)
  : outcome GauntletTypeStats :=
  match t with
  | kana => fulfilled k
  | kanji => fulfilled j
  | vocabulary => fulfilled v
  end.

(** What [hasData] of the page says, in terms of the store: a session was
    played or some character has an entry. *)
Definition page_has_data (stores : Stores) : Prop :=
  0 < at_totalSessions (allTimeStats stores)
  \/ at_characterMastery (allTimeStats stores) <> [].

(** The integers that a JavaScript number holds exactly and prints in
    plain decimal digits. *)
Definition safe_integer (z : Z) : Prop :=
  -9007199254740991 <= z <= 9007199254740991.

(** The characters other than the two unit letters of a displayed time. *)
Definition plain (c : Ascii.ascii) : Prop :=
  c <> "m"%char /\ c <> "s"%char.

(** Every character of [s] is plain. *)
Fixpoint all_plain (s : string) : Prop :=
  match s with
  | EmptyString => True
  | String c s' => plain c /\ all_plain s'
  end.

(** * Properties *)

(** ** Quotients of counters *)

Lemma Qle_ratio (n : Z) (d : positive) (c t : Z) :
  0 < t ->
  ((n # d) <= inject_Z c / inject_Z t)%Q <-> n * t <= c * Z.pos d.
Proof.
  intros Ht. destruct t as [|p|p]; try lia.
  unfold Qle, Qdiv, Qmult, Qinv, inject_Z. simpl.
  rewrite Z.mul_1_r. reflexivity.
Qed.

Lemma Qlt_ratio (n : Z) (d : positive) (c t : Z) :
  0 < t ->
  (inject_Z c / inject_Z t < (n # d))%Q <-> c * Z.pos d < n * t.
Proof.
  intros Ht. destruct t as [|p|p]; try lia.
  unfold Qlt, Qdiv, Qmult, Qinv, inject_Z. simpl.
  rewrite Z.mul_1_r. reflexivity.
Qed.

Lemma Qlt_bool_iff (a b : Q) : Qlt_bool a b = true <-> (a < b)%Q.
Proof.
  unfold Qlt_bool. rewrite negb_true_iff.
  split; intros H.
  - apply Qnot_le_lt. intros Hle. apply Qle_bool_iff in Hle. congruence.
  - destruct (Qle_bool b a) eqn:E; [|reflexivity].
    apply Qle_bool_iff in E. exfalso. exact (Qlt_not_le _ _ H E).
Qed.

(** ** The exact model against binary64

    On the counters the property tests draw (0 to 1000 each), the code run in
    binary64 classifies as the exact model does, and its accuracy stays in
    [0, 100] with the two end values met exactly. *)

(** The two branches of [Binary64.of_Z] are one conversion: to the nearest
    binary64 value. *)
Lemma binary64_of_Z_nearest (z : Z) :
  Binary64.of_Z z = SF2Prim (binary_normalize prec emax z 0 false).
Proof.
  unfold Binary64.of_Z.
  destruct ((0 <=? z) && (z <? 9007199254740992)) eqn:E; [|reflexivity].
  apply andb_prop in E. destruct E as [H0 H1].
  apply Z.leb_le in H0. apply Z.ltb_lt in H1.
  rewrite <- (SF2Prim_Prim2SF (of_uint63 (Uint63.of_Z z))).
  rewrite of_uint63_spec, Uint63.of_Z_spec.
  rewrite Z.mod_small; [reflexivity|].
  split; [exact H0|]. eapply Z.lt_trans; [exact H1|]. reflexivity.
Qed.

Lemma In_below (z : Z) (n : nat) :
  0 <= z < Z.of_nat n -> In z (Binary64.below n).
Proof.
  intros H. unfold Binary64.below. apply List.in_map_iff.
  exists (Z.to_nat z). split; [lia|]. apply List.in_seq. lia.
Qed.

Lemma MasteryLevel_eqb_eq (a b : MasteryLevel) :
  MasteryLevel_eqb a b = true <-> a = b.
Proof. destruct a, b; cbn; split; congruence. Qed.

Lemma classify_agrees_upto_1000 : forallb_square classify_agrees 1000 = true.
Proof. vm_cast_no_check (eq_refl true). Qed.


Lemma forallb_square_sound (f : Z -> Z -> bool) (B : nat) :
  forallb_square f B = true ->
  forall c i, 0 <= c <= Z.of_nat B -> 0 <= i <= Z.of_nat B -> f c i = true.
Proof.
  unfold forallb_square. cbv zeta. rewrite List.forallb_forall.
  intros H c i Hc Hi.
  specialize (H c (In_below c (S B) ltac:(lia))).
  rewrite List.forallb_forall in H.
  exact (H i (In_below i (S B) ltac:(lia))).
Qed.

Lemma binary64_classifyCharacter_agrees (c i : Z) :
  0 <= c <= 1000 -> 0 <= i <= 1000 ->
  Binary64.classifyCharacter (Binary64.of_Z c) (Binary64.of_Z i)
  = classifyCharacter c i.
Proof.
  intros Hc Hi. apply MasteryLevel_eqb_eq.
  apply (forallb_square_sound classify_agrees 1000
           classify_agrees_upto_1000);
    lia.
Qed.



(** *** The thresholds in the code's own arithmetic

    Read with the binary64 operations themselves, the two threshold rules
    describe the classifier on every pair of binary64 values. *)











(** ** Mastery classification *)

(** The two threshold tests of [classifyCharacter], once the division is
    cleared: for a positive total, the level is decided by integer
    inequalities. *)
Lemma classifyCharacter_cases (c i : Z) :
  0 < c + i ->
  classifyCharacter c i =
    if (10 <=? c + i) && (9 * (c + i) <=? 10 * c) then mastered
    else if (5 <=? c + i) && (10 * c <? 7 * (c + i)) then needs_practice
    else learning.
Proof.
  intros Ht. unfold classifyCharacter.
  destruct (Z.eqb_spec (c + i) 0) as [E|_]; [lia|].
  cbv zeta.
  assert (Hm : Qle_bool MASTERED_MIN_ACCURACY (inject_Z c / inject_Z (c + i))
               = (9 * (c + i) <=? 10 * c)).
  { apply eq_true_iff_eq. rewrite Qle_bool_iff. unfold MASTERED_MIN_ACCURACY.
    rewrite (Qle_ratio 9 10 c (c + i) Ht). rewrite Z.leb_le. lia. }
  assert (Hn : Qlt_bool (inject_Z c / inject_Z (c + i))
                 NEEDS_PRACTICE_MAX_ACCURACY
               = (10 * c <? 7 * (c + i))).
  { apply eq_true_iff_eq. rewrite Qlt_bool_iff.
    unfold NEEDS_PRACTICE_MAX_ACCURACY.
    rewrite (Qlt_ratio 7 10 c (c + i) Ht). rewrite Z.ltb_lt. lia. }
  rewrite Hm, Hn. reflexivity.
Qed.



(** The literal scenarios of the classifier. *)
Example classifyCharacter_scenarios :
  classifyCharacter 9 1 = mastered
  /\ classifyCharacter 18 2 = mastered
  /\ classifyCharacter 3 7 = needs_practice
  /\ classifyCharacter 0 0 = learning
  /\ classifyCharacter 5 2 = learning
  /\ classifyCharacter 69 31 = needs_practice.
Proof. repeat split. Qed.

(** ** Accuracy *)

Lemma calculateAccuracy_pos (c i : Z) :
  0 < c + i ->
  (calculateAccuracy c i == (100 * c) # Z.to_pos (c + i))%Q.
Proof.
  intros Ht. unfold calculateAccuracy.
  destruct (Z.eqb_spec (c + i) 0) as [E|_]; [lia|].
  destruct (c + i) as [|p|p] eqn:E; try lia.
  unfold Qeq, Qdiv, Qmult, Qinv, inject_Z. simpl. lia.
Qed.



(** ** Content type *)

Lemma detectContentType_single (u : code_unit) :
  detectContentType [u] = if isKana u then kana else kanji.
Proof.
  unfold detectContentType. cbn. destruct (isKana u), (isKanji u); reflexivity.
Qed.

Lemma isKana_ranges (u : Z) :
  isKana u = true <->
  (0x3040 <= u <= 0x309F) \/ (0x30A0 <= u <= 0x30FF).
Proof.
  unfold isKana, isHiragana, isKatakana, HIRAGANA_START, HIRAGANA_END,
    KATAKANA_START, KATAKANA_END.
  rewrite orb_true_iff, !andb_true_iff, !Z.leb_le. tauto.
Qed.

(** C6: [detectContentType] applies its rules in order: the empty string is
    vocabulary, a string of more than one code unit is vocabulary, a single
    code unit in the hiragana or katakana range is kana, a single code unit in
    the CJK range is kanji, and any other single code unit is kanji too. *)
Theorem detectContentType_rules (s : jsstring) :
  (s = [] -> detectContentType s = vocabulary)
  /\ ((1 < List.length s)%nat -> detectContentType s = vocabulary)
  /\ (forall u, s = [u] ->
      ((0x3040 <= u <= 0x309F) \/ (0x30A0 <= u <= 0x30FF) ->
       detectContentType s = kana)
      /\ (0x4E00 <= u <= 0x9FAF -> detectContentType s = kanji)
      /\ (~ ((0x3040 <= u <= 0x309F) \/ (0x30A0 <= u <= 0x30FF)) ->
          detectContentType s = kanji))
  /\ detectContentType [0x3042] = kana
  /\ detectContentType [0x30A2] = kana
  /\ detectContentType [0x65E5] = kanji
  /\ detectContentType [0x65E5; 0x672C] = vocabulary
  /\ detectContentType [] = vocabulary.
Proof.
  split; [intros ->; reflexivity|].
  split.
  { destruct s as [|a [|b s']]; cbn; intros H; try lia. reflexivity. }
  split; [|repeat split].
  intros u ->. rewrite detectContentType_single.
  pose proof (isKana_ranges u) as Hk.
  destruct (isKana u).
  - repeat split; intros H; try reflexivity.
    + exfalso. assert (Hr := proj1 Hk eq_refl). lia.
    + exfalso. apply H. apply Hk. reflexivity.
  - repeat split; intros H; try reflexivity.
    apply Hk in H. discriminate.
Qed.

Lemma detectContentType_rules_witness :
  [0x3093] = [0x3093] /\ (0x3040 <= 0x3093 <= 0x309F)
  /\ detectContentType [0x3093] = kana.
Proof.
  split; [reflexivity|]. split; [lia|].
  destruct (detectContentType_rules [0x3093]) as (_ & _ & H & _).
  destruct (H 0x3093 eq_refl) as (Hkana & _).
  apply Hkana. left. lia.
Defined.

(** ** Mastery distribution *)

Lemma count_item_total (d : MasteryDistribution) (x : CharacterMasteryItem) :
  d_total (count_item d x) = d_total d
  /\ d_mastered (count_item d x) + d_learning (count_item d x)
     + d_needsPractice (count_item d x)
     = d_mastered d + d_learning d + d_needsPractice d + 1.
Proof. unfold count_item. destruct (masteryLevel x); cbn; lia. Qed.

Lemma count_item_comm (d : MasteryDistribution) (x y : CharacterMasteryItem) :
  count_item (count_item d x) y = count_item (count_item d y) x.
Proof.
  unfold count_item.
  destruct (masteryLevel x), (masteryLevel y); cbn; f_equal; lia.
Qed.

(** The loop invariant: the total is never written, and each iteration adds
    one to exactly one of the three counters. *)
Lemma fold_count_item (l : list CharacterMasteryItem) :
  forall d,
    let r := fold_left count_item l d in
    d_total r = d_total d
    /\ d_mastered r + d_learning r + d_needsPractice r
       = d_mastered d + d_learning d + d_needsPractice d
         + Z.of_nat (List.length l).
Proof.
  induction l as [|x l IH]; intros d; cbn -[Z.of_nat].
  - lia.
  - destruct (IH (count_item d x)) as [Ht Hs].
    destruct (count_item_total d x) as [Ht' Hs'].
    split; [congruence|]. rewrite Hs, Hs'. lia.
Qed.

Lemma fold_count_item_perm (l l' : list CharacterMasteryItem) :
  Permutation l l' ->
  forall d, fold_left count_item l d = fold_left count_item l' d.
Proof.
  induction 1 as [|x l l' _ IH|x y l|l l' l'' _ IH1 _ IH2]; intros d; cbn.
  - reflexivity.
  - apply IH.
  - rewrite count_item_comm. reflexivity.
  - rewrite IH1. apply IH2.
Qed.

(** C3: the three counts of [calculateMasteryDistribution] add up to the
    total, which is the length of the input; the empty input gives four
    zeros; and the result does not depend on the order of the input. *)
Theorem calculateMasteryDistribution_invariant
  (items : list CharacterMasteryItem) :
  let r := calculateMasteryDistribution items in
  d_mastered r + d_learning r + d_needsPractice r = d_total r
  /\ d_total r = Z.of_nat (List.length items)
  /\ calculateMasteryDistribution [] =
     {| d_mastered := 0; d_learning := 0; d_needsPractice := 0;
        d_total := 0 |}
  /\ (forall items', Permutation items items' ->
      calculateMasteryDistribution items' = r).
Proof.
  cbv zeta. unfold calculateMasteryDistribution.
  match goal with
  | |- context [fold_left count_item items ?d] =>
      destruct (fold_count_item items d) as [Ht Hs]
  end.
  cbn [d_total d_mastered d_learning d_needsPractice] in Ht, Hs.
  repeat split.
  - rewrite Hs, Ht. lia.
  - exact Ht.
  - intros items' Hp. rewrite (Permutation_length Hp).
    symmetry. apply fold_count_item_perm. exact Hp.
Qed.

Lemma calculateMasteryDistribution_invariant_witness :
  Permutation sample_items (rev sample_items)
  /\ calculateMasteryDistribution (rev sample_items)
     = calculateMasteryDistribution sample_items.
Proof.
  split; [apply Permutation_rev|].
  destruct (calculateMasteryDistribution_invariant sample_items)
    as (_ & _ & _ & H).
  apply H. apply Permutation_rev.
Defined.

(** ** Filtering by content type *)

Lemma ContentType_eqb_eq (a b : ContentType) :
  ContentType_eqb a b = true <-> a = b.
Proof. destruct a, b; cbn; split; congruence. Qed.

Lemma filter_by_type_partition (items : list CharacterMasteryItem) :
  (List.length (filterCharacterMasteryByType items (only kana))
   + List.length (filterCharacterMasteryByType items (only kanji))
   + List.length (filterCharacterMasteryByType items (only vocabulary)))%nat
  = List.length items.
Proof.
  induction items as [|x items IH]; [reflexivity|].
  cbn in *. destruct (contentType x); cbn; lia.
Qed.

(** C8: filtering with [all] hands the list back unchanged; filtering with
    a content type keeps only items of that type; and the three per-type
    results have as many items together as the input. *)
Theorem filterCharacterMasteryByType_spec
  (items : list CharacterMasteryItem) :
  filterCharacterMasteryByType items all = items
  /\ (forall T,
      Forall (fun item => contentType item = T)
        (filterCharacterMasteryByType items (only T)))
  /\ (List.length (filterCharacterMasteryByType items (only kana))
      + List.length (filterCharacterMasteryByType items (only kanji))
      + List.length (filterCharacterMasteryByType items (only vocabulary)))%nat
     = List.length items.
Proof.
  split; [reflexivity|]. split; [|apply filter_by_type_partition].
  intros T. apply List.Forall_forall. intros x Hx. cbn in Hx.
  apply List.filter_In in Hx. destruct Hx as [_ Hx].
  apply ContentType_eqb_eq. exact Hx.
Qed.

(** ** Sorting and slicing *)

Section SortByKey.

Context {A : Type}.
Variable key : A -> Q.
Variable cmp : A -> A -> Q.

(** The comparison function is the sign of a difference of keys. *)
Hypothesis cmp_key : forall a b, (cmp a b <= 0)%Q <-> (key a <= key b)%Q.

Local Abbreviation key_le := (key_le key).

Lemma insert_by_Permutation (x : A) (l : list A) :
  Permutation (insert_by cmp x l) (x :: l).
Proof.
  induction l as [|y l IH]; cbn; [reflexivity|].
  destruct (Qle_bool (cmp x y) 0); [reflexivity|].
  rewrite IH. apply perm_swap.
Qed.

Lemma Array_sort_Permutation (l : list A) : Permutation (Array_sort cmp l) l.
Proof.
  induction l as [|x l IH]; cbn; [reflexivity|].
  fold (Array_sort cmp l). rewrite insert_by_Permutation.
  apply perm_skip. exact IH.
Qed.

Lemma insert_by_sorted (x : A) (l : list A) :
  StronglySorted key_le l -> StronglySorted key_le (insert_by cmp x l).
Proof.
  induction 1 as [|y l Hs IH Hy]; cbn.
  - constructor; constructor.
  - destruct (Qle_bool (cmp x y) 0) eqn:E.
    + apply Qle_bool_iff, cmp_key in E.
      constructor; [constructor; assumption|].
      constructor; [exact E|].
      eapply List.Forall_impl; [|exact Hy].
      intros z Hz. unfold key_le in *. eapply Qle_trans; eassumption.
    + assert (Hyx : key_le y x).
      { unfold key_le. apply Qlt_le_weak, Qnot_le_lt. intros Hle.
        apply cmp_key, Qle_bool_iff in Hle. congruence. }
      constructor; [exact IH|].
      eapply Permutation_Forall.
      * symmetry. apply insert_by_Permutation.
      * constructor; assumption.
Qed.

Lemma Array_sort_sorted (l : list A) :
  StronglySorted key_le (Array_sort cmp l).
Proof.
  induction l as [|x l IH]; cbn; [constructor|].
  apply insert_by_sorted. exact IH.
Qed.

Lemma Array_sort_Forall (P : A -> Prop) (l : list A) :
  Forall P l -> Forall P (Array_sort cmp l).
Proof.
  intros H. eapply Permutation_Forall; [|exact H].
  symmetry. apply Array_sort_Permutation.
Qed.

End SortByKey.

Lemma by_accuracy_asc_key (a b : CharacterMasteryItem) :
  (by_accuracy_asc a b <= 0)%Q <-> (accuracy a <= accuracy b)%Q.
Proof. unfold by_accuracy_asc. split; intros H; lra. Qed.

Lemma by_accuracy_desc_key (a b : CharacterMasteryItem) :
  (by_accuracy_desc a b <= 0)%Q <-> (- accuracy a <= - accuracy b)%Q.
Proof. unfold by_accuracy_desc. split; intros H; lra. Qed.

(** For a count that is not negative, [slice(0, count)] is the prefix of
    that length. *)
Lemma Array_slice_prefix {A : Type} (l : list A) (count : Z) :
  0 <= count -> Array_slice l 0 count = firstn (Z.to_nat count) l.
Proof.
  intros Hn. unfold Array_slice, clamp_index.
  destruct (Z.ltb_spec 0 0) as [?|_]; [lia|].
  destruct (Z.ltb_spec count 0) as [?|_]; [lia|].
  rewrite (Z.min_l 0) by lia.
  change (skipn (Z.to_nat 0) l) with l.
  destruct (Z.le_gt_cases count (Z.of_nat (List.length l))) as [Hle|Hgt].
  - rewrite Z.min_l by lia. f_equal. lia.
  - rewrite Z.min_r by lia.
    rewrite !firstn_all2 by lia. reflexivity.
Qed.

(** A negative count drops that many items from the end instead. *)
Lemma Array_slice_negative {A : Type} (l : list A) (count : Z) :
  count < 0 ->
  Array_slice l 0 count
  = firstn (List.length l - Z.to_nat (- count)) l.
Proof.
  intros Hn. unfold Array_slice, clamp_index.
  destruct (Z.ltb_spec 0 0) as [?|_]; [lia|].
  destruct (Z.ltb_spec count 0) as [_|?]; [|lia].
  rewrite (Z.min_l 0) by lia.
  change (skipn (Z.to_nat 0) l) with l. f_equal. lia.
Qed.

Lemma firstn_Forall {A : Type} (P : A -> Prop) (n : nat) (l : list A) :
  Forall P l -> Forall P (firstn n l).
Proof.
  revert n. induction l as [|x l IH]; intros [|n] H; cbn; try constructor.
  - inversion H; assumption.
  - apply IH. inversion H; assumption.
Qed.

Lemma firstn_StronglySorted {A : Type} (R : A -> A -> Prop) (n : nat)
  (l : list A) :
  StronglySorted R l -> StronglySorted R (firstn n l).
Proof.
  revert n. induction l as [|x l IH]; intros [|n] H; cbn; try constructor.
  - apply IH. inversion H; assumption.
  - apply firstn_Forall. inversion H; assumption.
Qed.

Lemma filter_Forall_true {A : Type} (p : A -> bool) (l : list A) :
  Forall (fun x => p x = true) (List.filter p l).
Proof.
  apply List.Forall_forall. intros x Hx.
  apply List.filter_In in Hx. tauto.
Qed.

(** ** The top-N queries *)

(** The panel's query and the hook's query are the same function on the
    difficult side. *)
Lemma getTopCharacters_difficult (items : list CharacterMasteryItem)
  (count : Z) :
  getTopCharacters items count difficult
  = getTopDifficultCharacters items count 5.
Proof. reflexivity. Qed.

Lemma getTopCharacters_mastered (items : list CharacterMasteryItem)
  (count : Z) :
  getTopCharacters items count best_mastered
  = getTopMasteredCharacters items count.
Proof. reflexivity. Qed.

Lemma getTopDifficultCharacters_props (items : list CharacterMasteryItem)
  (count minAttempts : Z) :
  0 <= count ->
  let r := getTopDifficultCharacters items count minAttempts in
  Z.of_nat (List.length r) <= count
  /\ Forall (fun item => minAttempts <= total item) r
  /\ StronglySorted accuracy_le r.
Proof.
  intros Hn. cbv zeta. unfold getTopDifficultCharacters.
  rewrite Array_slice_prefix by exact Hn.
  split; [|split].
  - pose proof (firstn_le_length (Z.to_nat count)
      (Array_sort by_accuracy_asc
         (List.filter (fun item => minAttempts <=? total item) items))).
    lia.
  - apply firstn_Forall.
    apply (Array_sort_Forall by_accuracy_asc).
    eapply List.Forall_impl; [|apply filter_Forall_true].
    intros x Hx. cbn in Hx. apply Z.leb_le. exact Hx.
  - apply firstn_StronglySorted.
    apply (Array_sort_sorted accuracy by_accuracy_asc by_accuracy_asc_key).
Qed.

(** C7: for every list of classified items and every requested count N,
    the top-difficult query (the hook's [getTopDifficultCharacters] with its
    minimum of 5 attempts, and the panel's [getTopCharacters]) returns at
    most N items, each with at least 5 attempts, in order of non-decreasing
    accuracy; an item with fewer than 5 attempts is never returned, whatever
    its accuracy. *)
Theorem top_difficult_spec (items : list CharacterMasteryItem) (N : nat) :
  let ok (r : list CharacterMasteryItem) :=
    (List.length r <= N)%nat
    /\ Forall (fun item => 5 <= total item) r
    /\ StronglySorted accuracy_le r
    /\ (forall item, total item < 5 -> ~ In item r) in
  ok (getTopDifficultCharacters items (Z.of_nat N) 5)
  /\ ok (getTopCharacters items (Z.of_nat N) difficult).
Proof.
  intros ok. rewrite getTopCharacters_difficult.
  assert (H : ok (getTopDifficultCharacters items (Z.of_nat N) 5)).
  { destruct (getTopDifficultCharacters_props items (Z.of_nat N) 5
                ltac:(lia)) as (Hl & Hf & Hs).
    unfold ok. repeat split; try assumption; [lia|].
    intros item Hlt Hin.
    rewrite List.Forall_forall in Hf. specialize (Hf item Hin). lia. }
  split; exact H.
Qed.

Lemma top_difficult_spec_witness :
  In sample_kanji sample_items
  /\ total sample_kanji < 5
  /\ ~ In sample_kanji (getTopDifficultCharacters sample_items 2 5).
Proof.
  split; [cbn; tauto|].
  assert (Ht : total sample_kanji < 5) by (cbn; lia).
  split; [exact Ht|].
  destruct (top_difficult_spec sample_items 2) as [(_ & _ & _ & H) _].
  apply H. exact Ht.
Defined.

(** The mastered side: at most [count] items, all mastered, in order of
    non-increasing accuracy. *)
Lemma StronglySorted_impl {A : Type} (R S : A -> A -> Prop) (l : list A) :
  (forall a b, R a b -> S a b) -> StronglySorted R l -> StronglySorted S l.
Proof.
  intros HRS. induction 1 as [|x l Hs IH Hx]; constructor.
  - exact IH.
  - eapply List.Forall_impl; [|exact Hx]. intros b. apply HRS.
Qed.

Lemma getTopMasteredCharacters_props (items : list CharacterMasteryItem)
  (count : Z) :
  0 <= count ->
  let r := getTopMasteredCharacters items count in
  Z.of_nat (List.length r) <= count
  /\ Forall (fun item => masteryLevel item = mastered) r
  /\ StronglySorted accuracy_ge r.
Proof.
  intros Hn. cbv zeta. unfold getTopMasteredCharacters.
  rewrite Array_slice_prefix by exact Hn.
  split; [|split].
  - match goal with
    | |- context [firstn ?n ?l] => pose proof (firstn_le_length n l)
    end.
    lia.
  - apply firstn_Forall.
    apply (Array_sort_Forall by_accuracy_desc).
    eapply List.Forall_impl; [|apply filter_Forall_true].
    intros x Hx. cbn in Hx. apply MasteryLevel_eqb_eq. exact Hx.
  - apply firstn_StronglySorted.
    apply (StronglySorted_impl (key_le (fun x => (- accuracy x)%Q))).
    + intros a b H. unfold key_le in H. unfold accuracy_ge. lra.
    + apply (Array_sort_sorted _ by_accuracy_desc by_accuracy_desc_key).
Qed.

(** What the queries answer on the sample: the two least accurate items
    with five attempts or more. *)
Example top_difficult_sample :
  List.map character (getTopDifficultCharacters sample_items 2 5)
  = [[0x3046]; [0x3044]]
  /\ List.map character (getTopCharacters sample_items 5 difficult)
    = [[0x3046]; [0x3044]; [0x65E5; 0x672C]; [0x3042]].
Proof. split; reflexivity. Qed.

(** ** The queries leave their input alone *)

Lemma lookup_alloc_old (h : Heap.store) (x l : list CharacterMasteryItem)
  (r : Heap.ref) :
  h !! r = Some l -> <[fresh (dom h) := x]> h !! r = Some l.
Proof.
  intros Hr. rewrite lookup_insert_ne; [exact Hr|].
  intros E. apply (is_fresh (dom h)). rewrite E.
  apply elem_of_dom. eexists. exact Hr.
Qed.

Lemma alloc_keeps (h : Heap.store) (x : list CharacterMasteryItem) :
  Heap.keeps_and_returns h (Heap.alloc x) x.
Proof.
  split; cbn.
  - intros r l Hr. apply lookup_alloc_old. exact Hr.
  - apply lookup_insert_eq.
Qed.

(** Sorting an array that was allocated after [h] was taken changes no
    array of [h]. *)
Lemma sort_fresh_keeps (h h1 : Heap.store) (a : Heap.ref)
  (cmp : CharacterMasteryItem -> CharacterMasteryItem -> Q)
  (x : list CharacterMasteryItem) :
  Heap.preserved h h1 -> h !! a = None -> h1 !! a = Some x ->
  Heap.preserved h (snd (Heap.sort cmp a h1))
  /\ fst (Heap.sort cmp a h1) = a
  /\ snd (Heap.sort cmp a h1) !! a = Some (Array_sort cmp x).
Proof.
  intros Hp Hnone Hx. unfold Heap.sort. cbn. rewrite Hx. cbn.
  split; [|split; [reflexivity|apply lookup_insert_eq]].
  intros r l Hr. rewrite lookup_insert_ne.
  - apply Hp. exact Hr.
  - intros <-. congruence.
Qed.

Lemma fresh_None (h : Heap.store) : h !! fresh (dom h) = None.
Proof. apply not_elem_of_dom. apply is_fresh. Qed.

(** Filter, sort the new array in place, slice: the shape of the two
    queries of the hook. *)
Lemma filter_sort_slice_keeps (h : Heap.store) (items : Heap.ref)
  (l : list CharacterMasteryItem) (p : CharacterMasteryItem -> bool)
  (cmp : CharacterMasteryItem -> CharacterMasteryItem -> Q) (count : Z) :
  h !! items = Some l ->
  Heap.keeps_and_returns h
    (Heap.bind (Heap.filter p items) (fun filtered =>
     Heap.bind (Heap.sort cmp filtered) (fun sorted =>
     Heap.slice sorted 0 count)))
    (Array_slice (Array_sort cmp (List.filter p l)) 0 count).
Proof.
  intros Hl. unfold Heap.keeps_and_returns, Heap.bind, Heap.filter,
    Heap.read, Heap.alloc, Heap.slice. cbn. rewrite Hl. cbn.
  set (f := fresh (dom h)).
  set (h1 := <[f := List.filter p l]> h).
  assert (Hp1 : Heap.preserved h h1).
  { intros r x Hr. apply lookup_alloc_old. exact Hr. }
  assert (Hf1 : h1 !! f = Some (List.filter p l)) by apply lookup_insert_eq.
  destruct (sort_fresh_keeps h h1 f cmp _ Hp1 (fresh_None h) Hf1)
    as (Hp2 & _ & Hs).
  unfold Heap.sort in Hp2, Hs. cbn in Hp2, Hs.
  set (h2 := <[f := Array_sort cmp (default [] (h1 !! f))]> h1) in *.
  rewrite Hs. cbn.
  split; [|apply lookup_insert_eq].
  intros r x Hr. apply lookup_alloc_old. apply Hp2. exact Hr.
Qed.

(** Filter, copy, sort the copy in place, slice: the shape of the panel's
    query. *)
Lemma filter_spread_sort_slice_keeps (h : Heap.store) (items : Heap.ref)
  (l : list CharacterMasteryItem) (p : CharacterMasteryItem -> bool)
  (cmp : CharacterMasteryItem -> CharacterMasteryItem -> Q) (count : Z) :
  h !! items = Some l ->
  Heap.keeps_and_returns h
    (Heap.bind (Heap.filter p items) (fun filtered =>
     Heap.bind (Heap.spread filtered) (fun copy =>
     Heap.bind (Heap.sort cmp copy) (fun sorted =>
     Heap.slice sorted 0 count))))
    (Array_slice (Array_sort cmp (List.filter p l)) 0 count).
Proof.
  intros Hl. unfold Heap.keeps_and_returns, Heap.bind, Heap.filter,
    Heap.spread, Heap.read, Heap.alloc, Heap.slice. cbn. rewrite Hl. cbn.
  set (f := fresh (dom h)).
  set (h1 := <[f := List.filter p l]> h).
  assert (Hp1 : Heap.preserved h h1).
  { intros r x Hr. apply lookup_alloc_old. exact Hr. }
  assert (Hf1 : h1 !! f = Some (List.filter p l)) by apply lookup_insert_eq.
  rewrite Hf1. cbn.
  set (c := fresh (dom h1)).
  set (h2 := <[c := List.filter p l]> h1).
  assert (Hp2 : Heap.preserved h h2).
  { intros r x Hr. apply lookup_alloc_old. apply Hp1. exact Hr. }
  assert (Hc : h !! c = None).
  { destruct (h !! c) as [x|] eqn:E; [|reflexivity].
    apply Hp1 in E. pose proof (fresh_None h1) as Hn. fold c in Hn.
    congruence. }
  assert (Hc2 : h2 !! c = Some (List.filter p l)) by apply lookup_insert_eq.
  destruct (sort_fresh_keeps h h2 c cmp _ Hp2 Hc Hc2) as (Hp3 & _ & Hs).
  unfold Heap.sort in Hp3, Hs. cbn in Hp3, Hs.
  set (h3 := <[c := Array_sort cmp (default [] (h2 !! c))]> h2) in *.
  rewrite Hs. cbn.
  split; [|apply lookup_insert_eq].
  intros r x Hr. apply lookup_alloc_old. apply Hp3. exact Hr.
Qed.

Lemma filter_keeps (h : Heap.store) (items : Heap.ref)
  (l : list CharacterMasteryItem) (p : CharacterMasteryItem -> bool) :
  h !! items = Some l ->
  Heap.keeps_and_returns h (Heap.filter p items) (List.filter p l).
Proof.
  intros Hl. unfold Heap.filter, Heap.bind, Heap.read. cbn.
  unfold Heap.keeps_and_returns. cbn. rewrite Hl. cbn.
  apply (alloc_keeps h (List.filter p l)).
Qed.

(** C9: the derived queries do not mutate their input.  Run on a store in
    which [items] holds the list [l], each of [getTopDifficultCharacters],
    [getTopMasteredCharacters], [filterCharacterMasteryByType] and the
    panel's [getTopCharacters] ends in a store where [items] still holds [l]
    (and every other array of the initial store is unchanged too), and
    returns an array holding the result of the query on [l]. *)
Theorem queries_keep_input (h : Heap.store) (items : Heap.ref)
  (l : list CharacterMasteryItem) :
  h !! items = Some l ->
  forall (count minAttempts : Z) (filter_ : ContentFilter) (sortBy : SortBy),
    let unchanged (q : Heap.St Heap.ref) (result : list CharacterMasteryItem) :=
      snd (q h) !! items = Some l /\ Heap.keeps_and_returns h q result in
    unchanged (Heap.getTopDifficultCharacters items count minAttempts)
      (getTopDifficultCharacters l count minAttempts)
    /\ unchanged (Heap.getTopMasteredCharacters items count)
         (getTopMasteredCharacters l count)
    /\ unchanged (Heap.filterCharacterMasteryByType items filter_)
         (filterCharacterMasteryByType l filter_)
    /\ unchanged (Heap.getTopCharacters items count sortBy)
         (getTopCharacters l count sortBy).
Proof.
  intros Hl count minAttempts filter_ sortBy unchanged.
  assert (Hu : forall q result,
             Heap.keeps_and_returns h q result -> unchanged q result).
  { intros q result Hk. split; [|exact Hk].
    destruct Hk as [Hp _]. apply Hp. exact Hl. }
  split; [|split; [|split]]; apply Hu.
  - apply (filter_sort_slice_keeps h items l _ _ count Hl).
  - apply (filter_sort_slice_keeps h items l _ _ count Hl).
  - destruct filter_ as [|t]; cbn.
    + split; cbn; [intros r x Hr; exact Hr|exact Hl].
    + apply (filter_keeps h items l _ Hl).
  - apply (filter_spread_sort_slice_keeps h items l _ _ count Hl).
Qed.

Lemma queries_keep_input_witness :
  sample_store !! 1%positive = Some sample_items
  /\ snd (Heap.getTopCharacters 1%positive 5 difficult sample_store)
     !! 1%positive = Some sample_items.
Proof.
  assert (H : sample_store !! 1%positive = Some sample_items)
    by reflexivity.
  split; [exact H|].
  destruct (queries_keep_input sample_store 1%positive sample_items H
              5 5 all difficult) as (_ & _ & _ & Hq & _).
  exact Hq.
Defined.

(** ** Gauntlet aggregation *)

Lemma completion_rate_bounds (completed sessions : Z) :
  0 <= completed <= sessions -> 0 < sessions ->
  let rate := ((inject_Z completed / inject_Z sessions) * 100)%Q in
  (rate == 100 * inject_Z completed / inject_Z sessions)%Q
  /\ (0 <= rate)%Q /\ (rate <= 100)%Q.
Proof.
  intros Hc Hs. destruct sessions as [|p|p]; try lia.
  unfold Qeq, Qle, Qdiv, Qmult, Qinv, inject_Z. simpl.
  repeat split; lia.
Qed.

Lemma fastest_of_three (a b c : option Z) :
  match non_null [a; b; c] with
  | t :: ts => least_non_null [a; b; c] (Math_min t ts)
  | [] => a = None /\ b = None /\ c = None
  end.
Proof.
  unfold least_non_null, Math_min.
  destruct a as [x|], b as [y|], c as [z|]; cbn;
    try (repeat split; reflexivity);
    (split;
     [ match goal with
       | |- context [Z.min (Z.min x y) z] =>
           destruct (Z.min_spec x y) as [[? ->]|[? ->]];
           [destruct (Z.min_spec x z) as [[? ->]|[? ->]]
           |destruct (Z.min_spec y z) as [[? ->]|[? ->]]]
       | |- context [Z.min ?p ?q] =>
           destruct (Z.min_spec p q) as [[? ->]|[? ->]]
       | _ => idtac
       end; tauto
     | intros t Ht;
       repeat (destruct Ht as [Ht|Ht]; [try discriminate Ht; injection Ht as <-; lia|]);
       destruct Ht ]).
Qed.



(** ** A failing fetch *)

Lemma Promise_all3_rejects {A : Type} (p : ContentType -> outcome A) :
  (exists t reason, p t = rejected reason) ->
  exists reason, Promise_all3 (p kana) (p kanji) (p vocabulary)
                 = rejected reason.
Proof.
  intros (t & reason & Ht).
  destruct (p kana) as [a|e1] eqn:E1; [|eexists; reflexivity].
  destruct (p kanji) as [b|e2] eqn:E2; [|eexists; reflexivity].
  destruct (p vocabulary) as [c|e3] eqn:E3; [|eexists; reflexivity].
  destruct t; congruence.
Qed.

(** [loadGauntletStats] handles the rejection itself: it logs a warning and
    resolves to null. *)
Lemma loadGauntletStats_swallows
  (getOverallStats : ContentType -> outcome GauntletTypeStats)
  (cells : HookState) :
  some_fetch_rejects getOverallStats ->
  exists cells',
    loadGauntletStats getOverallStats cells = (fulfilled None, cells')
    /\ gauntletStats cells' = gauntletStats cells
    /\ isLoading cells' = isLoading cells
    /\ error cells' = error cells.
Proof.
  intros H. destruct (Promise_all3_rejects getOverallStats H) as [reason Hr].
  unfold loadGauntletStats, try_catch, bind, await. rewrite Hr.
  eexists. split; [reflexivity|]. cbn. repeat split.
Qed.

(** Whatever the source does, [loadGauntletStats] does not reject. *)
Lemma loadGauntletStats_never_rejects
  (getOverallStats : ContentType -> outcome GauntletTypeStats)
  (cells : HookState) :
  exists r cells',
    loadGauntletStats getOverallStats cells = (fulfilled r, cells')
    /\ error cells' = error cells
    /\ isLoading cells' = isLoading cells.
Proof.
  unfold loadGauntletStats, try_catch, bind, await.
  destruct (Promise_all3 _ _ _) as [[[a b] c]|reason].
  - destruct (_ =? 0); eexists; eexists; (split; [reflexivity|]);
      split; reflexivity.
  - eexists; eexists. split; [reflexivity|]. split; reflexivity.
Qed.

(** So the handler of [refreshGauntletStats] is dead code: after a refresh
    the error cell is null, whether the fetches failed or not. *)
Lemma refreshGauntletStats_error_null
  (getOverallStats : ContentType -> outcome GauntletTypeStats)
  (cells : HookState) :
  fst (refreshGauntletStats getOverallStats cells) = fulfilled tt
  /\ error (snd (refreshGauntletStats getOverallStats cells)) = None
  /\ isLoading (snd (refreshGauntletStats getOverallStats cells)) = false.
Proof.
  unfold refreshGauntletStats, try_catch_finally, try_catch, bind.
  cbn [setIsLoading setError].
  match goal with
  | |- context [loadGauntletStats getOverallStats ?c] =>
      destruct (loadGauntletStats_never_rejects getOverallStats c)
        as (r & c' & Hl & He & _);
      rewrite Hl
  end.
  cbn in *. repeat split. exact He.
Qed.

Lemma refreshGauntletStats_failure
  (getOverallStats : ContentType -> outcome GauntletTypeStats)
  (stores : Stores) (cells : HookState) :
  some_fetch_rejects getOverallStats ->
  let cells' := snd (refreshGauntletStats getOverallStats cells) in
  fst (refreshGauntletStats getOverallStats cells) = fulfilled tt
  /\ gauntletStats cells' = None
  /\ isLoading cells' = false
  /\ error cells' = None
  /\ gauntlet (stats (useStatsAggregator stores cells')) = None
  /\ other_parts (stats (useStatsAggregator stores cells'))
     = other_parts (stats (useStatsAggregator stores cells)).
Proof.
  intros H cells'.
  destruct (refreshGauntletStats_error_null getOverallStats cells)
    as (Hf & He & Hl).
  assert (Hg : gauntletStats cells' = None).
  { subst cells'.
    unfold refreshGauntletStats, try_catch_finally, try_catch, bind.
    cbn [setIsLoading setError].
    match goal with
    | |- context [loadGauntletStats getOverallStats ?c] =>
        destruct (loadGauntletStats_swallows getOverallStats c H)
          as (c' & Hc & _);
        rewrite Hc
    end.
    reflexivity. }
  repeat split; try assumption.
Qed.

(** C5, as the code runs it: the kana fetch rejects.  The refresh ends
    without an exception, the gauntlet part of the snapshot is null, loading
    is over and the other parts of the snapshot are what they were; but the
    error cell is null: the consumer is told of no failure, which only
    reaches the console as a warning. *)
Theorem refresh_after_failed_fetch :
  let cells' := snd (refreshGauntletStats source_kana_fails initial_cells) in
  fst (refreshGauntletStats source_kana_fails initial_cells) = fulfilled tt
  /\ gauntlet (stats (useStatsAggregator sample_stores cells')) = None
  /\ r_isLoading (useStatsAggregator sample_stores cells') = false
  /\ r_error (useStatsAggregator sample_stores cells') = None
  /\ console cells'
     = ["[useStatsAggregator] Failed to load gauntlet stats:"%string]
  /\ other_parts (stats (useStatsAggregator sample_stores cells'))
     = other_parts (stats (useStatsAggregator sample_stores initial_cells)).
Proof.
  assert (H : some_fetch_rejects source_kana_fails).
  { exists kana. eexists. reflexivity. }
  destruct (refreshGauntletStats_failure source_kana_fails sample_stores
              initial_cells H) as (Hf & Hg & Hl & He & Hs & Ho).
  cbv zeta. repeat split; try assumption.
Qed.

(** ** Percentages of the distribution *)

Lemma calculatePercentage_zero_total (value : Z) :
  calculatePercentage value 0 = 0%Q.
Proof. reflexivity. Qed.

Lemma binary64_percentage_zero_total (value : float) :
  Binary64.calculatePercentage value (Binary64.of_Z 0) = 0%float.
Proof. reflexivity. Qed.







(** The literal scenarios, as binary64 runs them. *)
Example binary64_scenarios :
  Binary64.classifyCharacter 7 3 = learning
  /\ Binary64.classifyCharacter 69 31 = needs_practice
  /\ Binary64.classifyCharacter 9 1 = mastered
  /\ Binary64.calculateAccuracy 9 1 = 90%float
  /\ Binary64.calculateAccuracy 0 0 = 0%float
  /\ Binary64.calculateAccuracy 50 50 = 50%float.
Proof. repeat split. Qed.

(** * Further properties of the stats code *)

(** ** Selection of the top items *)

Lemma skipn_In {A : Type} (n : nat) (l : list A) (y : A) :
  In y (skipn n l) -> In y l.
Proof.
  intros H. rewrite <- (firstn_skipn n l). apply List.in_or_app. right.
  exact H.
Qed.

Lemma firstn_skipn_sorted {A : Type} (R : A -> A -> Prop) (n : nat)
  (l : list A) :
  StronglySorted R l ->
  forall x y, In x (firstn n l) -> In y (skipn n l) -> R x y.
Proof.
  revert n. induction l as [|a l IH]; intros [|n] Hs x y Hx Hy;
    cbn in Hx, Hy; try contradiction.
  inversion Hs as [|? ? Hs' Ha]; subst.
  destruct Hx as [<-|Hx].
  - rewrite List.Forall_forall in Ha. apply Ha.
    apply (skipn_In n). exact Hy.
  - eapply IH; eassumption.
Qed.

Lemma Array_sort_length {A : Type} (cmp : A -> A -> Q) (l : list A) :
  List.length (Array_sort cmp l) = List.length l.
Proof. apply Permutation_length. apply Array_sort_Permutation. Qed.

(** Taking the first [N] of a sorted array: as many as there are, up to
    [N]; what is left out comes after everything taken. *)
Lemma sort_slice_selects {A : Type} (key : A -> Q) (cmp : A -> A -> Q)
  (l : list A) (N : nat) :
  (forall a b, (cmp a b <= 0)%Q <-> (key a <= key b)%Q) ->
  let r := Array_slice (Array_sort cmp l) 0 (Z.of_nat N) in
  List.length r = Nat.min N (List.length l)
  /\ exists rest,
       Permutation (r ++ rest) l
       /\ forall x y, In x r -> In y rest -> (key x <= key y)%Q.
Proof.
  intros Hcmp. cbv zeta. rewrite Array_slice_prefix by lia.
  rewrite Nat2Z.id. split.
  - rewrite List.length_firstn, Array_sort_length. reflexivity.
  - exists (skipn N (Array_sort cmp l)). split.
    + rewrite firstn_skipn. apply Array_sort_Permutation.
    + apply (firstn_skipn_sorted (key_le key)).
      apply (Array_sort_sorted key cmp Hcmp).
Qed.

(** X1: the top mastered characters.  For a count [N] that is not
    negative, [getTopMasteredCharacters] and the panel's [getTopCharacters]
    with ['mastered'] return at most [N] items, every one of them at level
    mastered, in order of accuracy from the highest down. *)
Theorem top_mastered_spec (items : list CharacterMasteryItem) (N : nat) :
  let ok (r : list CharacterMasteryItem) :=
    (List.length r <= N)%nat
    /\ Forall (fun item => masteryLevel item = mastered) r
    /\ StronglySorted accuracy_ge r in
  ok (getTopMasteredCharacters items (Z.of_nat N))
  /\ ok (getTopCharacters items (Z.of_nat N) best_mastered).
Proof.
  intros ok. rewrite getTopCharacters_mastered.
  assert (H : ok (getTopMasteredCharacters items (Z.of_nat N))).
  { destruct (getTopMasteredCharacters_props items (Z.of_nat N)
                ltac:(lia)) as (Hl & Hf & Hs).
    unfold ok. repeat split; try assumption. lia. }
  split; exact H.
Qed.

(** X2: the top lists take the extreme items.  [getTopDifficultCharacters]
    with the default minimum of 5 attempts returns [min N e] items, where
    [e] is the number of items with at least 5 attempts; together with the
    items it leaves out it is a rearrangement of those eligible items, and no
    item left out has a lower accuracy than an item returned.  The same for
    [getTopMasteredCharacters] with the items at level mastered and "higher"
    for "lower". *)
Theorem top_items_are_extreme (items : list CharacterMasteryItem) (N : nat) :
  (let eligible := List.filter (fun item => 5 <=? total item) items in
   let r := getTopDifficultCharacters items (Z.of_nat N) 5 in
   List.length r = Nat.min N (List.length eligible)
   /\ exists rest,
        Permutation (r ++ rest) eligible
        /\ forall x y, In x r -> In y rest ->
                       (accuracy x <= accuracy y)%Q)
  /\ (let eligible := at_level mastered items in
      let r := getTopMasteredCharacters items (Z.of_nat N) in
      List.length r = Nat.min N (List.length eligible)
      /\ exists rest,
           Permutation (r ++ rest) eligible
           /\ forall x y, In x r -> In y rest ->
                          (accuracy y <= accuracy x)%Q).
Proof.
  split.
  - apply (sort_slice_selects accuracy by_accuracy_asc _ N
             by_accuracy_asc_key).
  - destruct (sort_slice_selects (fun x => (- accuracy x)%Q)
                by_accuracy_desc (at_level mastered items) N
                by_accuracy_desc_key) as (Hl & rest & Hp & Hr).
    split; [exact Hl|]. exists rest. split; [exact Hp|].
    intros x y Hx Hy. specialize (Hr x y Hx Hy). cbn in Hr. lra.
Qed.

(** ** Ties *)






(** ** From raw counters to classified items *)

Lemma classified_item (c i : Z) :
  0 <= c -> 0 <= i ->
  let acc := calculateAccuracy c i in
  (0 <= acc)%Q /\ (acc <= 100)%Q
  /\ (classifyCharacter c i = mastered <-> 10 <= c + i /\ (90 <= acc)%Q)
  /\ (classifyCharacter c i = needs_practice
      <-> 5 <= c + i /\ (acc < 70)%Q).
Proof.
  intros Hc Hi acc. subst acc.
  destruct (Z.eq_dec (c + i) 0) as [E0|Hne].
  - assert (Ha : calculateAccuracy c i = 0%Q).
    { unfold calculateAccuracy. rewrite E0. reflexivity. }
    assert (Hl : classifyCharacter c i = learning).
    { unfold classifyCharacter. rewrite E0. reflexivity. }
    rewrite Ha, Hl, E0.
    repeat split; try discriminate; try (intros [? _]; lia);
      unfold Qle; simpl; lia.
  - assert (Ht : 0 < c + i) by lia.
    pose proof (calculateAccuracy_pos c i Ht) as Ha.
    rewrite (classifyCharacter_cases c i Ht).
    assert (H90 : (90 <= calculateAccuracy c i)%Q <-> 9 * (c + i) <= 10 * c).
    { rewrite Ha. unfold Qle. simpl. rewrite Z2Pos.id by lia. lia. }
    assert (H70 : (calculateAccuracy c i < 70)%Q <-> 10 * c < 7 * (c + i)).
    { rewrite Ha. unfold Qlt. simpl. rewrite Z2Pos.id by lia. lia. }
    rewrite H90, H70.
    split; [rewrite Ha; unfold Qle; simpl; lia|].
    split; [rewrite Ha; unfold Qle; simpl; rewrite Z2Pos.id by lia; lia|].
    destruct (Z.leb_spec 10 (c + i)), (Z.leb_spec (9 * (c + i)) (10 * c)),
      (Z.leb_spec 5 (c + i)), (Z.ltb_spec (10 * c) (7 * (c + i)));
      cbn [andb]; repeat split; intros; try discriminate; try lia;
      try tauto.
Qed.



(** ** Counting by level *)

Lemma fold_count_item_levels (l : list CharacterMasteryItem) :
  forall d,
    let r := fold_left count_item l d in
    d_mastered r = d_mastered d + Z.of_nat (List.length (at_level mastered l))
    /\ d_learning r
       = d_learning d + Z.of_nat (List.length (at_level learning l))
    /\ d_needsPractice r
       = d_needsPractice d
         + Z.of_nat (List.length (at_level needs_practice l)).
Proof.
  induction l as [|x l IH]; intros d; cbn -[Z.of_nat].
  - cbn. lia.
  - destruct (IH (count_item d x)) as (Hm & Hl & Hn).
    rewrite Hm, Hl, Hn. unfold count_item, at_level. cbn [List.filter].
    destruct (masteryLevel x); cbn -[Z.of_nat]; lia.
Qed.

Lemma fold_push_group (l : list CharacterMasteryItem) :
  forall g,
    fold_left push_group l g
    = {| grp_mastered := grp_mastered g ++ at_level mastered l;
         grp_learning := grp_learning g ++ at_level learning l;
         grp_needs_practice :=
           grp_needs_practice g ++ at_level needs_practice l |}.
Proof.
  induction l as [|x l IH]; intros g; cbn [fold_left].
  - unfold at_level. cbn. rewrite !List.app_nil_r. destruct g; reflexivity.
  - rewrite IH. unfold push_group, at_level. cbn [List.filter].
    destruct (masteryLevel x); cbn; rewrite <- ?List.app_assoc; reflexivity.
Qed.

Lemma filter_length_all {A : Type} (p : A -> bool) (l : list A) :
  List.length (List.filter p l) = List.length l
  <-> Forall (fun x => p x = true) l.
Proof.
  induction l as [|x l IH]; cbn.
  - split; [constructor|reflexivity].
  - pose proof (List.filter_length_le p l) as Hle.
    destruct (p x) eqn:E; cbn.
    + split.
      * intros H. constructor; [exact E|]. apply IH. lia.
      * intros H. inversion H; subst. f_equal. apply IH. assumption.
    + split; [lia|]. intros H. inversion H; subst. congruence.
Qed.

(** X5: the distribution counts the levels.  Each of the three counts of
    [calculateMasteryDistribution] is the number of items at that level,
    hence not negative, and the mastered count equals the total exactly when
    every item is mastered. *)
Theorem calculateMasteryDistribution_counts
  (items : list CharacterMasteryItem) :
  let r := calculateMasteryDistribution items in
  d_mastered r = Z.of_nat (List.length (at_level mastered items))
  /\ d_learning r = Z.of_nat (List.length (at_level learning items))
  /\ d_needsPractice r
     = Z.of_nat (List.length (at_level needs_practice items))
  /\ 0 <= d_mastered r /\ 0 <= d_learning r /\ 0 <= d_needsPractice r
  /\ (d_mastered r = d_total r <->
      Forall (fun item => masteryLevel item = mastered) items).
Proof.
  cbv zeta. unfold calculateMasteryDistribution.
  match goal with
  | |- context [fold_left count_item items ?d] =>
      destruct (fold_count_item_levels items d) as (Hm & Hl & Hn);
      destruct (fold_count_item items d) as (Ht & _)
  end.
  cbn [d_total d_mastered d_learning d_needsPractice] in Hm, Hl, Hn, Ht.
  rewrite Hm, Hl, Hn, Ht.
  split; [lia|]. split; [lia|]. split; [lia|].
  split; [lia|]. split; [lia|]. split; [lia|].
  rewrite Z.add_0_l. unfold at_level. split; intros H.
  - apply Nat2Z.inj in H. apply filter_length_all in H.
    eapply List.Forall_impl; [|exact H].
    intros a Ha. apply MasteryLevel_eqb_eq. exact Ha.
  - f_equal. apply filter_length_all.
    eapply List.Forall_impl; [|exact H].
    intros a Ha. apply MasteryLevel_eqb_eq. exact Ha.
Qed.

(** ** The data of the mastery panel *)

Lemma firstn_In {A : Type} (n : nat) (l : list A) (x : A) :
  In x (firstn n l) -> In x l.
Proof.
  intros H. rewrite <- (firstn_skipn n l). apply List.in_or_app. left.
  exact H.
Qed.

Lemma Array_slice_In {A : Type} (l : list A) (start final : Z) (x : A) :
  In x (Array_slice l start final) -> In x l.
Proof.
  unfold Array_slice. intros H. apply firstn_In in H.
  apply (skipn_In _ _ _ H).
Qed.

Lemma getTopCharacters_In (l : list CharacterMasteryItem) (count : Z)
  (sortBy : SortBy) (x : CharacterMasteryItem) :
  In x (getTopCharacters l count sortBy) -> In x l.
Proof.
  unfold getTopCharacters. intros H. apply Array_slice_In in H.
  eapply Permutation_in in H; [|apply Array_sort_Permutation].
  apply List.filter_In in H. tauto.
Qed.

Lemma getTopCharacters_length (l : list CharacterMasteryItem) (N : nat)
  (sortBy : SortBy) :
  (List.length (getTopCharacters l (Z.of_nat N) sortBy) <= N)%nat.
Proof.
  unfold getTopCharacters. rewrite Array_slice_prefix by lia.
  rewrite Nat2Z.id. apply List.firstn_le_length.
Qed.

Lemma levels_partition (l : list CharacterMasteryItem) :
  Permutation
    (at_level mastered l ++ at_level learning l ++ at_level needs_practice l)
    l.
Proof.
  induction l as [|x l IH]; [reflexivity|].
  unfold at_level in *. cbn [List.filter].
  destruct (masteryLevel x); cbn [MasteryLevel_eqb].
  - cbn. apply perm_skip. exact IH.
  - cbn [app]. symmetry. apply Permutation_cons_app. symmetry. exact IH.
  - rewrite List.app_assoc. symmetry. apply Permutation_cons_app.
    rewrite <- List.app_assoc. symmetry. exact IH.
Qed.

(** X6: the data of the mastery panel.  The filtered characters are those
    that [filterCharacterMasteryByType] gives on the transformed items; under
    a content-type filter every item of the three lists has that type; each
    top list has at most 5 items, all taken from the filtered characters;
    and the three groups are the filtered characters at each level, in their
    order, and together a rearrangement of the filtered characters. *)
Theorem CharacterMasteryPanel_data_spec (raw : RawMastery)
  (contentFilter : ContentFilter) :
  let d := CharacterMasteryPanel_data raw contentFilter in
  let g := groupedByMastery d in
  filteredCharacters d
  = filterCharacterMasteryByType (transformCharacterMastery raw) contentFilter
  /\ (forall t, contentFilter = only t ->
      Forall (fun item => contentType item = t)
        (filteredCharacters d ++ topDifficult d ++ topMastered d))
  /\ (List.length (topDifficult d) <= 5)%nat
  /\ (List.length (topMastered d) <= 5)%nat
  /\ incl (topDifficult d) (filteredCharacters d)
  /\ incl (topMastered d) (filteredCharacters d)
  /\ grp_mastered g = at_level mastered (filteredCharacters d)
  /\ grp_learning g = at_level learning (filteredCharacters d)
  /\ grp_needs_practice g = at_level needs_practice (filteredCharacters d)
  /\ Permutation (grp_mastered g ++ grp_learning g ++ grp_needs_practice g)
       (filteredCharacters d).
Proof.
  intros d g.
  assert (Hf : filteredCharacters d
               = filterCharacterMasteryByType (transformCharacterMastery raw)
                   contentFilter).
  { subst d. unfold CharacterMasteryPanel_data. cbn [filteredCharacters].
    destruct contentFilter; reflexivity. }
  assert (Hd : incl (topDifficult d) (filteredCharacters d)).
  { intros x Hx. subst d. cbn in Hx |- *.
    apply getTopCharacters_In in Hx. exact Hx. }
  assert (Hm : incl (topMastered d) (filteredCharacters d)).
  { intros x Hx. subst d. cbn in Hx |- *.
    apply getTopCharacters_In in Hx. exact Hx. }
  assert (Hg : g = {| grp_mastered := at_level mastered (filteredCharacters d);
                      grp_learning := at_level learning (filteredCharacters d);
                      grp_needs_practice :=
                        at_level needs_practice (filteredCharacters d) |}).
  { subst g d. unfold CharacterMasteryPanel_data.
    cbn [groupedByMastery filteredCharacters]. rewrite fold_push_group.
    reflexivity. }
  split; [exact Hf|]. split.
  { intros t ->. rewrite Hf.
    assert (Hall : Forall (fun item => contentType item = t)
                     (filterCharacterMasteryByType
                        (transformCharacterMastery raw) (only t))).
    { apply List.Forall_forall. intros x Hx. cbn in Hx.
      apply List.filter_In in Hx. apply ContentType_eqb_eq. tauto. }
    rewrite <- Hf in Hall |- *.
    rewrite !List.Forall_app. split; [exact Hall|].
    rewrite List.Forall_forall in Hall.
    split; apply List.Forall_forall; intros x Hx; apply Hall; auto. }
  split; [apply (getTopCharacters_length _ 5)|].
  split; [apply (getTopCharacters_length _ 5)|].
  split; [exact Hd|]. split; [exact Hm|].
  rewrite Hg. cbn [grp_mastered grp_learning grp_needs_practice].
  repeat split. apply levels_partition.
Qed.

Lemma CharacterMasteryPanel_data_spec_witness :
  only kana = only kana
  /\ List.map character
       (filteredCharacters (CharacterMasteryPanel_data sample_raw (only kana)))
     = [[0x3042]; [0x3044]; [0x3046]]
  /\ Forall (fun item => contentType item = kana)
       (topDifficult (CharacterMasteryPanel_data sample_raw (only kana))).
Proof.
  split; [reflexivity|]. split; [reflexivity|].
  destruct (CharacterMasteryPanel_data_spec sample_raw (only kana))
    as (_ & H & _).
  specialize (H kana eq_refl).
  rewrite !List.Forall_app in H. tauto.
Defined.

(** ** The snapshot of the hook *)

(** X7: the snapshot of the hook is consistent.  The character items are
    the transformed raw mastery, the number of characters learned is the
    number of raw entries and equals the total of the distribution and the
    sum of its three counts; the overall accuracy and the accuracy of each
    timed mode are [calculateAccuracy] of the counters beside them; the
    gauntlet value is the cell's; and nothing else depends on the cells. *)
Theorem useStatsAggregator_consistent (stores : Stores) (cells : HookState) :
  let s := stats (useStatsAggregator stores cells) in
  let raw := at_characterMastery (allTimeStats stores) in
  characterMastery s = transformCharacterMastery raw
  /\ uniqueCharactersLearned s = Z.of_nat (List.length raw)
  /\ d_total (masteryDistribution s) = uniqueCharactersLearned s
  /\ d_mastered (masteryDistribution s) + d_learning (masteryDistribution s)
     + d_needsPractice (masteryDistribution s) = uniqueCharactersLearned s
  /\ overallAccuracy s = calculateAccuracy (totalCorrect s) (totalIncorrect s)
  /\ Forall (fun t => t_accuracy t = calculateAccuracy (t_correct t) (t_wrong t))
       [timedKana s; timedKanji s; timedVocabulary s]
  /\ gauntlet s = gauntletStats cells
  /\ (forall cells',
      other_parts (stats (useStatsAggregator stores cells')) = other_parts s).
Proof.
  intros s raw. subst s. unfold useStatsAggregator.
  cbn [stats characterMastery uniqueCharactersLearned masteryDistribution
       overallAccuracy totalCorrect totalIncorrect timedKana timedKanji
       timedVocabulary gauntlet].
  fold raw.
  assert (Hlen : List.length (transformCharacterMastery raw) = List.length raw).
  { unfold transformCharacterMastery. apply List.length_map. }
  unfold calculateMasteryDistribution.
  match goal with
  | |- context [fold_left count_item ?l ?d] =>
      destruct (fold_count_item l d) as (Ht & Hs)
  end.
  cbn [d_total d_mastered d_learning d_needsPractice] in Ht, Hs.
  rewrite Hlen in *.
  split; [reflexivity|]. split; [reflexivity|].
  split; [exact Ht|]. split; [rewrite Hs; lia|].
  split; [reflexivity|].
  split; [repeat constructor|].
  split; reflexivity.
Qed.

(** ** Content types of strings *)

Lemma isKana_interval (u : Z) : isKana u = true <-> 0x3040 <= u <= 0x30FF.
Proof. rewrite isKana_ranges. lia. Qed.

(** X8: the content type of a string, characterised.  It is vocabulary
    exactly when the string does not have exactly one code unit; kana
    exactly when it is one code unit from U+3040 to U+30FF; kanji exactly
    when it is one code unit outside that range, whether or not in the kanji
    block.  The kana ranges and the kanji block do not overlap. *)
Theorem detectContentType_characterised (s : jsstring) :
  (detectContentType s = vocabulary <-> List.length s <> 1%nat)
  /\ (detectContentType s = kana
      <-> exists u, s = [u] /\ 0x3040 <= u <= 0x30FF)
  /\ (detectContentType s = kanji
      <-> exists u, s = [u] /\ ~ (0x3040 <= u <= 0x30FF))
  /\ (forall u, isKana u = true -> isKanji u = false).
Proof.
  assert (Hdisj : forall u, isKana u = true -> isKanji u = false).
  { intros u Hu. apply isKana_interval in Hu.
    unfold isKanji, KANJI_START, KANJI_END.
    destruct (Z.leb_spec 0x4e00 u); [lia|reflexivity]. }
  destruct s as [|u [|v s']].
  - cbn. repeat split; try discriminate; try (intros (u & Hu & _); discriminate);
      try (intros _; lia); exact Hdisj.
  - rewrite detectContentType_single.
    pose proof (isKana_interval u) as Hk.
    destruct (isKana u); cbn [List.length].
    + repeat split; try discriminate; try (intros H; lia).
      * intros _. exists u. split; [reflexivity|]. apply Hk. reflexivity.
      * intros (u' & Hu & Hn). injection Hu as <-. exfalso. apply Hn.
        apply Hk. reflexivity.
      * exact Hdisj.
    + repeat split; try discriminate; try (intros H; lia).
      * intros (u' & Hu & Hr). injection Hu as <-. apply Hk in Hr.
        discriminate.
      * intros _. exists u. split; [reflexivity|]. intros Hr. apply Hk in Hr.
        discriminate.
      * exact Hdisj.
  - assert (Hv : detectContentType (u :: v :: s') = vocabulary)
      by reflexivity.
    rewrite Hv. cbn [List.length].
    repeat split; try discriminate; try (intros (w & Hw & _); discriminate);
      try (intros _; lia); exact Hdisj.
Qed.

Lemma filter_types_partition (chars : list jsstring) :
  (List.length (filterByContentType chars kana)
   + List.length (filterByContentType chars kanji)
   + List.length (filterByContentType chars vocabulary))%nat
  = List.length chars.
Proof.
  induction chars as [|x chars IH]; [reflexivity|].
  unfold filterByContentType in *. cbn [List.filter].
  destruct (detectContentType x); cbn; lia.
Qed.

(** X9: [filterByContentType] on the characters of the raw mastery keeps
    exactly the strings of the asked type; the three types split the
    characters (the lengths add up); and it agrees with filtering the
    transformed items by type and then reading their characters. *)
Theorem filterByContentType_spec (raw : RawMastery) (T : ContentType) :
  let chars := List.map fst raw in
  Forall (fun s => detectContentType s = T) (filterByContentType chars T)
  /\ (List.length (filterByContentType chars kana)
      + List.length (filterByContentType chars kanji)
      + List.length (filterByContentType chars vocabulary))%nat
     = List.length chars
  /\ List.map character
       (filterCharacterMasteryByType (transformCharacterMastery raw) (only T))
     = filterByContentType chars T
  /\ (forall s, In s chars -> detectContentType s = T ->
      In s (filterByContentType chars T)).
Proof.
  cbv zeta. split; [|split; [|split]].
  - apply List.Forall_forall. intros s Hs. unfold filterByContentType in Hs.
    apply List.filter_In in Hs. apply ContentType_eqb_eq. tauto.
  - apply filter_types_partition.
  - induction raw as [|[ch data] raw IH]; [reflexivity|].
    cbn [transformCharacterMastery List.map filterCharacterMasteryByType
         List.filter filterByContentType fst contentType] in *.
    destruct (ContentType_eqb (detectContentType ch) T); cbn [List.map].
    + cbn [character]. f_equal. exact IH.
    + exact IH.
  - intros s Hs Ht. unfold filterByContentType. apply List.filter_In.
    split; [exact Hs|]. apply ContentType_eqb_eq. exact Ht.
Qed.

Lemma filterByContentType_spec_witness :
  In [0x3042] (List.map fst sample_raw)
  /\ detectContentType [0x3042] = kana
  /\ In [0x3042] (filterByContentType (List.map fst sample_raw) kana).
Proof.
  assert (Hi : In [0x3042] (List.map fst sample_raw)) by (cbn; tauto).
  split; [exact Hi|]. split; [reflexivity|].
  destruct (filterByContentType_spec sample_raw kana) as (_ & _ & _ & H).
  apply H; [exact Hi|reflexivity].
Defined.

(** ** How the level moves with one more answer *)

Lemma classifyCharacter_level (c i : Z) :
  0 <= c -> 0 <= i ->
  (classifyCharacter c i = mastered <-> 10 <= c + i /\ 9 * (c + i) <= 10 * c)
  /\ (classifyCharacter c i = needs_practice
      <-> 5 <= c + i /\ 10 * c < 7 * (c + i)).
Proof.
  intros Hc Hi. destruct (Z.eq_dec (c + i) 0) as [E0|Hne].
  - assert (Hl : classifyCharacter c i = learning).
    { unfold classifyCharacter. rewrite E0. reflexivity. }
    rewrite Hl. split; split; try discriminate; lia.
  - rewrite (classifyCharacter_cases c i ltac:(lia)).
    destruct (Z.leb_spec 10 (c + i)), (Z.leb_spec (9 * (c + i)) (10 * c)),
      (Z.leb_spec 5 (c + i)), (Z.ltb_spec (10 * c) (7 * (c + i)));
      cbn [andb]; repeat split; intros; try discriminate; try lia;
      try tauto.
Qed.

(** X10: how the level moves.  With counters that are not negative: one
    more correct answer keeps a mastered character mastered; one more wrong
    answer keeps a character that needs practice in need of practice; under
    5 attempts the level is learning; under 10 attempts it is never
    mastered; 10 or more answers, all correct, is mastered; 5 or more
    answers, all wrong, needs practice. *)
Theorem classifyCharacter_one_more_answer (correct incorrect : Z) :
  0 <= correct -> 0 <= incorrect ->
  (classifyCharacter correct incorrect = mastered ->
   classifyCharacter (correct + 1) incorrect = mastered)
  /\ (classifyCharacter correct incorrect = needs_practice ->
      classifyCharacter correct (incorrect + 1) = needs_practice)
  /\ (correct + incorrect < 5 ->
      classifyCharacter correct incorrect = learning)
  /\ (correct + incorrect < 10 ->
      classifyCharacter correct incorrect <> mastered)
  /\ (incorrect = 0 -> 10 <= correct ->
      classifyCharacter correct incorrect = mastered)
  /\ (correct = 0 -> 5 <= incorrect ->
      classifyCharacter correct incorrect = needs_practice).
Proof.
  intros Hc Hi.
  destruct (classifyCharacter_level correct incorrect Hc Hi) as [Hm Hn].
  destruct (classifyCharacter_level (correct + 1) incorrect ltac:(lia) Hi)
    as [Hm1 _].
  destruct (classifyCharacter_level correct (incorrect + 1) Hc ltac:(lia))
    as [_ Hn1].
  split; [intros H; apply Hm in H; apply Hm1; lia|].
  split; [intros H; apply Hn in H; apply Hn1; lia|].
  split.
  { intros Hlt. destruct (classifyCharacter correct incorrect);
      [ pose proof (proj1 Hm eq_refl); lia
      | reflexivity
      | pose proof (proj1 Hn eq_refl); lia ]. }
  split; [intros Hlt H; apply Hm in H; lia|].
  split; [intros -> H; apply Hm; lia|].
  intros -> H. apply Hn. lia.
Qed.

Lemma classifyCharacter_one_more_answer_witness :
  0 <= 9 /\ 0 <= 1 /\ classifyCharacter 9 1 = mastered
  /\ classifyCharacter 10 1 = mastered.
Proof.
  split; [lia|]. split; [lia|].
  assert (H91 : classifyCharacter 9 1 = mastered) by reflexivity.
  split; [exact H91|].
  destruct (classifyCharacter_one_more_answer 9 1 ltac:(lia) ltac:(lia))
    as (H & _).
  exact (H H91).
Defined.

(** ** Accuracy as a function of the counters *)



(** ** Loading and refreshing the gauntlet statistics *)

Lemma loadGauntletStats_fulfilled
  (getOverallStats : ContentType -> outcome GauntletTypeStats)
  (k j v : GauntletTypeStats) (cells : HookState) :
  getOverallStats kana = fulfilled k ->
  getOverallStats kanji = fulfilled j ->
  getOverallStats vocabulary = fulfilled v ->
  let sessions := s_totalSessions k + s_totalSessions j + s_totalSessions v in
  exists r,
    loadGauntletStats getOverallStats cells = (fulfilled r, cells)
    /\ (sessions = 0 -> r = None)
    /\ (sessions <> 0 ->
        exists g,
          r = Some g
          /\ g_totalSessions g = sessions
          /\ g_completedSessions g
             = s_completedSessions k + s_completedSessions j
               + s_completedSessions v
          /\ g_totalCorrect g
             = s_totalCorrect k + s_totalCorrect j + s_totalCorrect v
          /\ g_totalWrong g = s_totalWrong k + s_totalWrong j + s_totalWrong v
          /\ g_bestStreak g
             = Math_max3 (s_bestStreak k) (s_bestStreak j) (s_bestStreak v)
          /\ g_fastestTime g
             = match non_null [s_fastestTime k; s_fastestTime j;
                               s_fastestTime v] with
               | t :: ts => Some (Math_min t ts)
               | [] => None
               end
          /\ g_accuracy g = calculateAccuracy (g_totalCorrect g) (g_totalWrong g)).
Proof.
  intros Hk Hj Hv sessions.
  unfold loadGauntletStats, try_catch, bind, await.
  rewrite Hk, Hj, Hv. cbn [Promise_all3]. fold sessions.
  destruct (Z.eqb_spec sessions 0) as [E|Hne].
  - eexists. split; [reflexivity|]. split; [reflexivity|contradiction].
  - eexists. split; [reflexivity|]. split; [contradiction|].
    intros _. eexists. split; [reflexivity|]. cbn. repeat split.
Qed.

Lemma no_fetch_rejects
  (getOverallStats : ContentType -> outcome GauntletTypeStats) :
  ~ some_fetch_rejects getOverallStats ->
  exists k j v,
    getOverallStats kana = fulfilled k
    /\ getOverallStats kanji = fulfilled j
    /\ getOverallStats vocabulary = fulfilled v.
Proof.
  intros H.
  destruct (getOverallStats kana) as [k|e] eqn:Ek;
    [|exfalso; apply H; exists kana, e; exact Ek].
  destruct (getOverallStats kanji) as [j|e] eqn:Ej;
    [|exfalso; apply H; exists kanji, e; exact Ej].
  destruct (getOverallStats vocabulary) as [v|e] eqn:Ev;
    [|exfalso; apply H; exists vocabulary, e; exact Ev].
  exists k, j, v. repeat split.
Qed.

Lemma some_fetch_rejects_dec
  (getOverallStats : ContentType -> outcome GauntletTypeStats) :
  some_fetch_rejects getOverallStats \/ ~ some_fetch_rejects getOverallStats.
Proof.
  destruct (getOverallStats kana) as [k|e] eqn:Ek;
    [|left; exists kana, e; exact Ek].
  destruct (getOverallStats kanji) as [j|e] eqn:Ej;
    [|left; exists kanji, e; exact Ej].
  destruct (getOverallStats vocabulary) as [v|e] eqn:Ev;
    [|left; exists vocabulary, e; exact Ev].
  right. intros (t & reason & Ht). destruct t; congruence.
Qed.

(** Whatever the source does, the load resolves, to a value that does not
    depend on the cells, and writes at most a warning. *)
Lemma loadGauntletStats_resolves
  (getOverallStats : ContentType -> outcome GauntletTypeStats) :
  exists r,
    (some_fetch_rejects getOverallStats -> r = None)
    /\ forall cells,
         exists cells',
           loadGauntletStats getOverallStats cells = (fulfilled r, cells')
           /\ gauntletStats cells' = gauntletStats cells
           /\ isLoading cells' = isLoading cells
           /\ error cells' = error cells
           /\ (some_fetch_rejects getOverallStats ->
               console cells'
               = console cells
                 ++ ["[useStatsAggregator] Failed to load gauntlet stats:"%string])
           /\ (~ some_fetch_rejects getOverallStats -> cells' = cells).
Proof.
  destruct (some_fetch_rejects_dec getOverallStats) as [Hr|Hn].
  - destruct (Promise_all3_rejects getOverallStats Hr) as [reason Hp].
    exists None. split; [reflexivity|]. intros cells. eexists.
    unfold loadGauntletStats, try_catch, bind, await.
    rewrite Hp. split; [reflexivity|]. cbn.
    repeat split; try reflexivity. contradiction.
  - destruct (no_fetch_rejects getOverallStats Hn) as (k & j & v & Hk & Hj & Hv).
    destruct (loadGauntletStats_fulfilled getOverallStats k j v
                initial_cells Hk Hj Hv) as (r & Hl & _).
    exists r. split; [contradiction|]. intros cells. exists cells.
    split.
    + unfold loadGauntletStats, try_catch, bind, await in Hl |- *.
      rewrite Hk, Hj, Hv in Hl |- *. cbn [Promise_all3] in Hl |- *.
      destruct (_ =? 0); cbn in Hl |- *; congruence.
    + repeat split; try reflexivity; contradiction.
Qed.

(** The refresh stores what the load resolved to, ends loading and leaves
    no error. *)
Lemma refreshGauntletStats_runs
  (getOverallStats : ContentType -> outcome GauntletTypeStats)
  (cells : HookState) (r : option GauntletOverallStats) :
  (forall c, exists c',
      loadGauntletStats getOverallStats c = (fulfilled r, c')
      /\ error c' = error c) ->
  fst (refreshGauntletStats getOverallStats cells) = fulfilled tt
  /\ isLoading (snd (refreshGauntletStats getOverallStats cells)) = false
  /\ error (snd (refreshGauntletStats getOverallStats cells)) = None
  /\ gauntletStats (snd (refreshGauntletStats getOverallStats cells)) = r.
Proof.
  intros Hload.
  unfold refreshGauntletStats, try_catch_finally, try_catch, bind.
  cbn [setIsLoading setError].
  match goal with
  | |- context [loadGauntletStats getOverallStats ?c0] =>
      destruct (Hload c0) as (c' & Hl & He); rewrite Hl
  end.
  cbn in He |- *. repeat split. exact He.
Qed.

(** X12: [loadGauntletStats] never throws.  Whatever the three fetches do,
    it resolves, and leaves the gauntlet, loading and error cells as they
    were.  If a fetch rejects, it resolves to null and writes one warning to
    the console; if none does, it writes nothing.  The value it resolves to
    does not depend on the cells. *)
Theorem loadGauntletStats_never_throws
  (getOverallStats : ContentType -> outcome GauntletTypeStats)
  (cells : HookState) :
  exists r cells',
    loadGauntletStats getOverallStats cells = (fulfilled r, cells')
    /\ gauntletStats cells' = gauntletStats cells
    /\ isLoading cells' = isLoading cells
    /\ error cells' = error cells
    /\ (some_fetch_rejects getOverallStats ->
        r = None
        /\ console cells'
           = console cells
             ++ ["[useStatsAggregator] Failed to load gauntlet stats:"%string])
    /\ (~ some_fetch_rejects getOverallStats -> cells' = cells)
    /\ (forall other,
        fst (loadGauntletStats getOverallStats other) = fulfilled r).
Proof.
  destruct (loadGauntletStats_resolves getOverallStats) as (r & Hnone & Hall).
  destruct (Hall cells) as (cells' & Hl & Hg & Hi & He & Hc & Hsame).
  exists r, cells'. split; [exact Hl|].
  split; [exact Hg|]. split; [exact Hi|]. split; [exact He|].
  split; [intros H; split; [exact (Hnone H)|exact (Hc H)]|].
  split; [exact Hsame|].
  intros other. destruct (Hall other) as (c' & Hl' & _). rewrite Hl'.
  reflexivity.
Qed.

Lemma loadGauntletStats_never_throws_witness :
  some_fetch_rejects source_kana_fails
  /\ fst (loadGauntletStats source_kana_fails initial_cells) = fulfilled None.
Proof.
  assert (H : some_fetch_rejects source_kana_fails).
  { exists kana. eexists. reflexivity. }
  split; [exact H|].
  destruct (loadGauntletStats_never_throws source_kana_fails initial_cells)
    as (r & cells' & Hl & _ & _ & _ & Hr & _).
  destruct (Hr H) as [-> _]. rewrite Hl. reflexivity.
Defined.

(** X13: [refreshGauntletStats] replaces the gauntlet value.  It always
    resolves, ends with the loading flag off and no error, and stores what
    [loadGauntletStats] resolves to; so the stored value does not depend on
    the cells it started from, and refreshing again stores the same value. *)
Theorem refreshGauntletStats_replaces
  (getOverallStats : ContentType -> outcome GauntletTypeStats)
  (cells other : HookState) :
  let after := snd (refreshGauntletStats getOverallStats cells) in
  fst (refreshGauntletStats getOverallStats cells) = fulfilled tt
  /\ isLoading after = false
  /\ error after = None
  /\ fst (loadGauntletStats getOverallStats cells)
     = fulfilled (gauntletStats after)
  /\ gauntletStats (snd (refreshGauntletStats getOverallStats other))
     = gauntletStats after
  /\ gauntletStats (snd (refreshGauntletStats getOverallStats after))
     = gauntletStats after.
Proof.
  intros after.
  destruct (loadGauntletStats_resolves getOverallStats) as (r & _ & Hall).
  assert (Hload : forall c, exists c',
             loadGauntletStats getOverallStats c = (fulfilled r, c')
             /\ error c' = error c).
  { intros c. destruct (Hall c) as (c' & Hl & _ & _ & He & _).
    exists c'. split; assumption. }
  destruct (refreshGauntletStats_runs getOverallStats cells r Hload)
    as (Hf & Hl & He & Hg).
  destruct (refreshGauntletStats_runs getOverallStats other r Hload)
    as (_ & _ & _ & Hg1).
  destruct (refreshGauntletStats_runs getOverallStats after r Hload)
    as (_ & _ & _ & Hg2).
  subst after. rewrite Hg, Hg1, Hg2.
  destruct (Hall cells) as (c' & Hlc & _). rewrite Hlc.
  repeat split; assumption.
Qed.

(** ** What the combined gauntlet record keeps *)

Lemma Math_min_le (t : Z) (ts : list Z) :
  Math_min t ts <= t /\ Forall (fun x => Math_min t ts <= x) ts.
Proof.
  unfold Math_min. revert t. induction ts as [|a ts IH]; intros t; cbn.
  - split; [lia|constructor].
  - destruct (IH (Z.min t a)) as [H1 H2]. split; [lia|].
    constructor; [lia|exact H2].
Qed.

(** X14: the combined record of three valid per-type records with at least
    one session.  [loadGauntletStats] resolves to a record that is valid in
    turn (completed sessions between 0 and the total, no negative counter),
    has a positive number of sessions, a best streak and a session total not
    below those of any type, a fastest time not above that of any type that
    has one and missing exactly when all three are missing, an accuracy that
    is [calculateAccuracy] of its counters, and accuracy and completion rate
    between 0 and 100. *)
Theorem loadGauntletStats_keeps_valid (k j v : GauntletTypeStats)
  (cells : HookState) :
  valid_type_stats k -> valid_type_stats j -> valid_type_stats v ->
  s_totalSessions k + s_totalSessions j + s_totalSessions v <> 0 ->
  exists g,
    loadGauntletStats (source_of k j v) cells = (fulfilled (Some g), cells)
    /\ valid_overall_stats g
    /\ 0 < g_totalSessions g
    /\ Forall (fun x => s_bestStreak x <= g_bestStreak g) [k; j; v]
    /\ Forall (fun x => s_totalSessions x <= g_totalSessions g) [k; j; v]
    /\ (forall x t m, In x [k; j; v] -> s_fastestTime x = Some t ->
        g_fastestTime g = Some m -> m <= t)
    /\ (g_fastestTime g = None <->
        Forall (fun x => s_fastestTime x = None) [k; j; v])
    /\ g_accuracy g = calculateAccuracy (g_totalCorrect g) (g_totalWrong g)
    /\ (0 <= g_accuracy g)%Q /\ (g_accuracy g <= 100)%Q
    /\ (0 <= g_completionRate g)%Q /\ (g_completionRate g <= 100)%Q.
Proof.
  intros (Hck & Hk1 & Hk2 & Hk3) (Hcj & Hj1 & Hj2 & Hj3)
    (Hcv & Hv1 & Hv2 & Hv3) Hne.
  assert (Hrate : exists g,
             loadGauntletStats (source_of k j v) cells
             = (fulfilled (Some g), cells)
             /\ g_completionRate g
                = ((inject_Z (s_completedSessions k + s_completedSessions j
                              + s_completedSessions v)
                    / inject_Z (s_totalSessions k + s_totalSessions j
                                + s_totalSessions v)) * 100)%Q).
  { unfold loadGauntletStats, try_catch, bind, await. cbn [source_of Promise_all3].
    destruct (Z.eqb_spec (s_totalSessions k + s_totalSessions j
                          + s_totalSessions v) 0) as [?|_]; [contradiction|].
    destruct (Z.ltb_spec 0 (s_totalSessions k + s_totalSessions j
                            + s_totalSessions v)) as [_|?]; [|lia].
    eexists. split; reflexivity. }
  destruct Hrate as (g & Hload & Hrate).
  destruct (loadGauntletStats_fulfilled (source_of k j v) k j v cells
              eq_refl eq_refl eq_refl) as (r & Hl & _ & Hsome).
  destruct (Hsome Hne) as (g' & -> & Hs & Hc & Hco & Hw & Hb & Hf & Ha).
  rewrite Hload in Hl. injection Hl as <-.
  exists g. split; [exact Hload|].
  unfold valid_overall_stats, Math_max3 in *.
  rewrite Hs, Hc, Hco, Hw, Hb.
  split; [repeat split; lia|]. split; [lia|].
  split; [repeat constructor; lia|].
  split; [repeat constructor; lia|].
  split.
  { intros x t m Hx Ht Hm. rewrite Hf in Hm.
    pose proof (fastest_of_three (s_fastestTime k) (s_fastestTime j)
                  (s_fastestTime v)) as Hleast.
    destruct (non_null [s_fastestTime k; s_fastestTime j; s_fastestTime v])
      as [|t0 ts]; [discriminate|].
    injection Hm as <-. destruct Hleast as [_ Hleast]. apply Hleast.
    rewrite <- Ht. cbn in Hx |- *.
    destruct Hx as [<-|[<-|[<-|[]]]]; tauto. }
  split.
  { rewrite Hf.
    assert (HF : Forall (fun x => s_fastestTime x = None) [k; j; v]
                 <-> s_fastestTime k = None /\ s_fastestTime j = None
                     /\ s_fastestTime v = None).
    { rewrite !List.Forall_cons_iff. pose proof (@List.Forall_nil
        GauntletTypeStats (fun x => s_fastestTime x = None)). tauto. }
    rewrite HF.
    destruct (s_fastestTime k), (s_fastestTime j), (s_fastestTime v); cbn;
      split; intros H; try discriminate; try tauto;
      destruct H as (? & ? & ?); discriminate. }
  split; [rewrite Ha, Hco, Hw; reflexivity|].
  rewrite Ha, Hco, Hw.
  destruct (classified_item
              (s_totalCorrect k + s_totalCorrect j + s_totalCorrect v)
              (s_totalWrong k + s_totalWrong j + s_totalWrong v)
              ltac:(lia) ltac:(lia)) as (H0 & H100 & _).
  split; [exact H0|]. split; [exact H100|].
  rewrite Hrate.
  destruct (completion_rate_bounds
              (s_completedSessions k + s_completedSessions j
               + s_completedSessions v)
              (s_totalSessions k + s_totalSessions j + s_totalSessions v)
              ltac:(lia) ltac:(lia)) as (_ & Hlo & Hhi).
  split; assumption.
Qed.

Lemma loadGauntletStats_keeps_valid_witness :
  exists g,
    loadGauntletStats
      (source_of (sample_type_stats 4 3 (Some 61000))
         (sample_type_stats 0 0 None) (sample_type_stats 4 1 (Some 45000)))
      initial_cells = (fulfilled (Some g), initial_cells)
    /\ valid_overall_stats g.
Proof.
  assert (Hvalid : forall n c t, 0 <= c <= n ->
             valid_type_stats (sample_type_stats n c t)).
  { intros n c t H. unfold valid_type_stats, sample_type_stats. cbn. lia. }
  destruct (loadGauntletStats_keeps_valid
              (sample_type_stats 4 3 (Some 61000))
              (sample_type_stats 0 0 None)
              (sample_type_stats 4 1 (Some 45000)) initial_cells
              (Hvalid 4 3 (Some 61000) ltac:(lia))
              (Hvalid 0 0 None ltac:(lia))
              (Hvalid 4 1 (Some 45000) ltac:(lia))
              ltac:(cbn; lia)) as (g & Hl & Hv & _).
  exists g. split; assumption.
Defined.

(** ** What the gauntlet panel shows *)

(** X15: what the page shows of the gauntlet statistics.  Without a
    session played and without any character entry the page shows no
    gauntlet panel, whatever the gauntlet statistics are.  Otherwise the
    panel shows: while the loading flag is on, the skeleton; after a
    refresh, never the skeleton, but the empty state if a fetch rejected or
    if the three valid records have no session at all, and else the grid of
    a record whose sessions are the sum of the three. *)
Theorem gauntlet_panel_after_refresh
  (getOverallStats : ContentType -> outcome GauntletTypeStats)
  (stores : Stores) (cells : HookState) :
  let view c := StatsPage_gauntlet (useStatsAggregator stores c) in
  let after := snd (refreshGauntletStats getOverallStats cells) in
  (~ page_has_data stores -> view cells = None /\ view after = None)
  /\ (page_has_data stores ->
      (isLoading cells = true -> view cells = Some LoadingSkeleton)
      /\ (exists p, view after = Some p /\ p <> LoadingSkeleton)
      /\ (some_fetch_rejects getOverallStats -> view after = Some EmptyState)
      /\ (forall k j v,
          getOverallStats kana = fulfilled k ->
          getOverallStats kanji = fulfilled j ->
          getOverallStats vocabulary = fulfilled v ->
          valid_type_stats k -> valid_type_stats j -> valid_type_stats v ->
          let sessions :=
            s_totalSessions k + s_totalSessions j + s_totalSessions v in
          (sessions = 0 -> view after = Some EmptyState)
          /\ (sessions <> 0 ->
              exists g,
                view after = Some (StatsGrid g)
                /\ g_totalSessions g = sessions))).
Proof.
  intros view after.
  assert (Hpage : forall c,
             (~ page_has_data stores -> view c = None)
             /\ (page_has_data stores ->
                 view c = Some (GauntletStatsPanel (gauntletStats c)
                                  (isLoading c)))).
  { intros c. unfold view, StatsPage_gauntlet, useStatsAggregator,
      page_has_data.
    cbn [stats gauntlet r_isLoading totalSessions uniqueCharactersLearned].
    unfold transformCharacterMastery. rewrite List.length_map.
    destruct (Z.ltb_spec 0 (at_totalSessions (allTimeStats stores)))
      as [Hs|Hs]; cbn [orb negb].
    - split; [intros H; exfalso; apply H; left; exact Hs|reflexivity].
    - destruct (at_characterMastery (allTimeStats stores)) as [|e raw].
      + cbn. split; [reflexivity|]. intros [H|H]; [lia|contradiction].
      + destruct (Z.ltb_spec 0 (Z.of_nat (List.length (e :: raw))))
          as [_|Hl]; [|cbn [List.length] in Hl; lia].
        cbn [negb]. split; [|reflexivity].
        intros H. exfalso. apply H. right. discriminate. }
  split.
  { intros Hn. split; apply Hpage; exact Hn. }
  intros Hd.
  destruct (loadGauntletStats_resolves getOverallStats) as (r & Hnone & Hall).
  assert (Hload : forall c, exists c',
             loadGauntletStats getOverallStats c = (fulfilled r, c')
             /\ error c' = error c).
  { intros c. destruct (Hall c) as (c' & Hl & _ & _ & He & _).
    exists c'. split; assumption. }
  destruct (refreshGauntletStats_runs getOverallStats cells r Hload)
    as (_ & Hl & _ & Hg).
  fold after in Hl, Hg.
  assert (Hview : view after = Some (GauntletStatsPanel r false)).
  { rewrite (proj2 (Hpage after) Hd), Hl, Hg. reflexivity. }
  split.
  { intros Hi. rewrite (proj2 (Hpage cells) Hd), Hi. reflexivity. }
  split.
  { eexists. split; [exact Hview|]. unfold GauntletStatsPanel. cbn.
    destruct r as [g|]; [|discriminate].
    destruct (0 <? g_totalSessions g); discriminate. }
  split.
  { intros Hrej. rewrite Hview, (Hnone Hrej). reflexivity. }
  intros k j v Hk Hj Hv (Hck & _) (Hcj & _) (Hcv & _) sessions.
  destruct (loadGauntletStats_fulfilled getOverallStats k j v cells
              Hk Hj Hv) as (r' & Hl' & H0 & H1).
  fold sessions in H0, H1.
  destruct (Hall cells) as (c' & Hlc & _).
  rewrite Hlc in Hl'. injection Hl' as <- _.
  rewrite Hview. split.
  - intros E. rewrite (H0 E). reflexivity.
  - intros Hne. destruct (H1 Hne) as (g & -> & Hs & _).
    exists g. split; [|exact Hs].
    unfold GauntletStatsPanel. rewrite Hs.
    destruct (Z.ltb_spec 0 sessions) as [_|?]; [reflexivity|].
    unfold sessions in *. lia.
Qed.

Lemma gauntlet_panel_after_refresh_witness :
  page_has_data sample_stores
  /\ some_fetch_rejects source_kana_fails
  /\ StatsPage_gauntlet
       (useStatsAggregator sample_stores
          (snd (refreshGauntletStats source_kana_fails initial_cells)))
     = Some EmptyState.
Proof.
  assert (Hd : page_has_data sample_stores).
  { unfold page_has_data. cbn. left. lia. }
  assert (H : some_fetch_rejects source_kana_fails).
  { exists kana. eexists. reflexivity. }
  split; [exact Hd|]. split; [exact H|].
  destruct (gauntlet_panel_after_refresh source_kana_fails sample_stores
              initial_cells) as (_ & Hp).
  destruct (Hp Hd) as (_ & _ & Hr & _).
  exact (Hr H).
Defined.
(** ** Displayed times *)

Lemma all_plain_app (s t : string) :
  all_plain s -> all_plain t -> all_plain (s ++ t).
Proof.
  induction s as [|c s IH]; cbn; [tauto|].
  intros [Hc Hs] Ht. split; [exact Hc|]. apply IH; assumption.
Qed.

Lemma string_of_uint_plain (d : Decimal.uint) :
  all_plain (NilEmpty.string_of_uint d).
Proof.
  induction d; cbn; repeat split; try discriminate; assumption.
Qed.

Lemma Number_toString_plain (z : Z) : all_plain (Number_toString z).
Proof.
  unfold Number_toString, NilZero.string_of_int, NilZero.string_of_uint.
  destruct (Z.to_int z) as [d|d]; destruct d; cbn;
    repeat split; try discriminate; apply string_of_uint_plain.
Qed.

Lemma Number_toString_inj (x y : Z) :
  Number_toString x = Number_toString y -> x = y.
Proof.
  unfold Number_toString. intros H.
  assert (Hn : forall z, Z.to_int z <> Decimal.Pos Decimal.Nil
                         /\ Z.to_int z <> Decimal.Neg Decimal.Nil).
  { intros z. destruct z as [|p|p]; cbn; split; try discriminate;
      intros E; injection E as E;
      exact (DecimalPos.Unsigned.to_uint_nonnil p E). }
  pose proof (NilZero.isi (Z.to_int x) (proj1 (Hn x)) (proj2 (Hn x))) as Hx.
  pose proof (NilZero.isi (Z.to_int y) (proj1 (Hn y)) (proj2 (Hn y))) as Hy.
  rewrite H, Hy in Hx. injection Hx as Hx.
  rewrite <- (DecimalZ.of_to x), <- (DecimalZ.of_to y), Hx. reflexivity.
Qed.

(** A string of plain characters followed by an [m] or an [s] is read
    back in one way only. *)
Lemma split_at_unit (s t : string) (c d : Ascii.ascii) (u v : string) :
  all_plain s -> all_plain t -> ~ plain c -> ~ plain d ->
  (s ++ String c u = t ++ String d v)%string ->
  s = t /\ c = d /\ u = v.
Proof.
  revert t. induction s as [|a s IH]; intros [|b t]; cbn;
    intros Hs Ht Hc Hd E.
  - injection E as -> ->. repeat split.
  - injection E as -> _. tauto.
  - injection E as -> _. tauto.
  - injection E as -> E. destruct Hs as [_ Hs], Ht as [_ Ht].
    destruct (IH t Hs Ht Hc Hd E) as (-> & -> & ->). repeat split.
Qed.

Lemma not_plain_m : ~ plain "m"%char.
Proof. intros [H _]. apply H. reflexivity. Qed.

Lemma not_plain_s : ~ plain "s"%char.
Proof. intros [_ H]. apply H. reflexivity. Qed.

Lemma append_assoc (a b c : string) :
  ((a ++ b) ++ c = a ++ b ++ c)%string.
Proof.
  induction a as [|x a IH]; [reflexivity|].
  change (String x ((a ++ b) ++ c) = String x (a ++ b ++ c))%string.
  f_equal. exact IH.
Qed.

Lemma ends_in_s (x : string) : (x ++ "s")%string <> "--"%string.
Proof.
  destruct x as [|c1 [|c2 [|c3 x]]]; cbn; intros E; discriminate.
Qed.

Lemma formatTime_cases (ms : Z) :
  let seconds := ms / 1000 in
  (seconds < 60
   /\ formatTime (Some ms) = (Number_toString seconds ++ "s")%string)
  \/ (60 <= seconds
      /\ formatTime (Some ms)
         = (Number_toString (seconds / 60) ++ "m "
            ++ Number_toString (seconds mod 60) ++ "s")%string).
Proof.
  intros seconds. unfold formatTime. fold seconds.
  destruct (Z.ltb_spec 0 (seconds / 60)) as [Hm|Hm].
  - right. assert (H60 : 60 <= seconds).
    { destruct (Z.le_gt_cases 60 seconds) as [H|H]; [exact H|].
      assert (seconds / 60 <= 0); [|lia].
      destruct (Z.le_gt_cases 0 seconds).
      - rewrite Z.div_small by lia. lia.
      - apply Z.lt_le_incl. apply Z.div_lt_upper_bound; lia. }
    split; [exact H60|]. rewrite Z.rem_mod_nonneg by lia. reflexivity.
  - left. split; [|reflexivity].
    destruct (Z.le_gt_cases 60 seconds) as [H|H]; [|exact H].
    assert (1 <= seconds / 60); [|lia].
    apply Z.div_le_lower_bound; lia.
Qed.

(** X16: the displayed time, for whole milliseconds that a number holds
    exactly.  A time never displays like a missing time.  Below one minute
    (and for a negative time) it is the whole seconds followed by [s]; from
    one minute on it is the whole minutes, [m], a blank, the remaining
    seconds, which lie between 0 and 59 and with 60 times the minutes make
    up the whole seconds, and [s].  Two times display alike exactly when
    they have the same whole seconds. *)
Theorem formatTime_spec (a b : Z) :
  safe_integer a -> safe_integer b ->
  formatTime (Some a) <> formatTime None
  /\ (a < 60000 ->
      formatTime (Some a) = (Number_toString (a / 1000) ++ "s")%string)
  /\ (60000 <= a ->
      exists r,
        0 <= r < 60 /\ 60 * (a / 60000) + r = a / 1000
        /\ formatTime (Some a)
           = (Number_toString (a / 60000) ++ "m " ++ Number_toString r
              ++ "s")%string)
  /\ (formatTime (Some a) = formatTime (Some b) <-> a / 1000 = b / 1000).
Proof.
  intros _ _.
  assert (Hdiv : forall x, x / 1000 / 60 = x / 60000).
  { intros x. rewrite Z.div_div by lia. reflexivity. }
  split; [|split; [|split]].
  - change (formatTime None) with "--"%string.
    destruct (formatTime_cases a) as [[_ ->]|[_ ->]].
    + apply ends_in_s.
    + rewrite <- (append_assoc "m " _ "s"), <- append_assoc.
      apply ends_in_s.
  - intros Ha. destruct (formatTime_cases a) as [[_ H]|[H _]]; [exact H|].
    assert (a / 1000 < 60); [|lia].
    apply Z.div_lt_upper_bound; lia.
  - intros Ha. destruct (formatTime_cases a) as [[H _]|[_ H]].
    + assert (60 <= a / 1000); [|lia]. apply Z.div_le_lower_bound; lia.
    + exists ((a / 1000) mod 60). rewrite <- Hdiv.
      split; [apply Z.mod_pos_bound; lia|].
      split; [symmetry; apply Z.div_mod; lia|exact H].
  - split; [|intros E; unfold formatTime; rewrite E; reflexivity].
    intros E.
    destruct (formatTime_cases a) as [[Ha Ea]|[Ha Ea]],
        (formatTime_cases b) as [[Hb Eb]|[Hb Eb]];
      rewrite Ea, Eb in E.
    + apply (split_at_unit _ _ _ _ _ _ (Number_toString_plain _)
               (Number_toString_plain _) not_plain_s not_plain_s) in E.
      apply Number_toString_inj. tauto.
    + apply (split_at_unit _ _ _ _ _ _ (Number_toString_plain _)
               (Number_toString_plain _) not_plain_s not_plain_m) in E.
      destruct E as (_ & E & _). discriminate.
    + apply (split_at_unit _ _ _ _ _ _ (Number_toString_plain _)
               (Number_toString_plain _) not_plain_m not_plain_s) in E.
      destruct E as (_ & E & _). discriminate.
    + apply (split_at_unit _ _ _ _ _ _ (Number_toString_plain _)
               (Number_toString_plain _) not_plain_m not_plain_m) in E.
      destruct E as (Em & _ & E). cbn in E. injection E as E.
      apply (split_at_unit _ _ _ _ _ _ (Number_toString_plain _)
               (Number_toString_plain _) not_plain_s not_plain_s) in E.
      destruct E as (Er & _). apply Number_toString_inj in Em, Er.
      rewrite (Z.div_mod (a / 1000) 60), (Z.div_mod (b / 1000) 60) by lia.
      rewrite Em, Er. reflexivity.
Qed.

Lemma formatTime_spec_witness :
  safe_integer 61000 /\ safe_integer 61999
  /\ formatTime (Some 61000) = "1m 1s"%string
  /\ formatTime (Some 61000) = formatTime (Some 61999).
Proof.
  assert (H1 : safe_integer 61000) by (unfold safe_integer; lia).
  assert (H2 : safe_integer 61999) by (unfold safe_integer; lia).
  split; [exact H1|]. split; [exact H2|]. split; [reflexivity|].
  destruct (formatTime_spec 61000 61999 H1 H2) as (_ & _ & _ & H).
  apply H. reflexivity.
Defined.
(** ** Which array a query returns *)

(** Sorting in place an array that a query has just made changes no array
    that was there before the query. *)
Lemma sort_result_keeps (h : Heap.store) (q : Heap.St Heap.ref)
  (result : list CharacterMasteryItem)
  (cmp : CharacterMasteryItem -> CharacterMasteryItem -> Q) :
  Heap.keeps_and_returns h q result ->
  h !! fst (q h) = None ->
  Heap.preserved h (snd (Heap.bind q (Heap.sort cmp) h)).
Proof.
  intros [Hp Hr] Hnone. unfold Heap.bind.
  destruct (q h) as [r h1] eqn:E. cbn [fst snd] in *.
  destruct (sort_fresh_keeps h h1 r cmp result Hp Hnone Hr) as (H & _).
  exact H.
Qed.

(** A reference that is fresh later was not in use earlier. *)
Lemma fresh_after (h h1 : Heap.store) :
  Heap.preserved h h1 -> h !! fresh (dom h1) = None.
Proof.
  intros Hp. destruct (h !! fresh (dom h1)) as [l|] eqn:E; [|reflexivity].
  apply Hp in E. pose proof (fresh_None h1). congruence.
Qed.

Lemma preserved_insert_fresh (h h1 : Heap.store) (r : Heap.ref)
  (x : list CharacterMasteryItem) :
  Heap.preserved h h1 -> h !! r = None -> Heap.preserved h (<[r := x]> h1).
Proof.
  intros Hp Hn a l Ha. rewrite lookup_insert_ne; [apply Hp; exact Ha|].
  intros <-. congruence.
Qed.

Lemma filter_sort_slice_fresh (h : Heap.store) (items : Heap.ref)
  (p : CharacterMasteryItem -> bool)
  (cmp : CharacterMasteryItem -> CharacterMasteryItem -> Q) (count : Z) :
  h !! fst (Heap.bind (Heap.filter p items) (fun filtered =>
            Heap.bind (Heap.sort cmp filtered) (fun sorted =>
            Heap.slice sorted 0 count)) h) = None.
Proof.
  unfold Heap.bind, Heap.filter, Heap.read, Heap.alloc, Heap.slice,
    Heap.sort. cbn.
  apply fresh_after. apply preserved_insert_fresh; [|apply fresh_None].
  apply preserved_insert_fresh; [|apply fresh_None].
  intros r l Hr. exact Hr.
Qed.

Lemma filter_spread_sort_slice_fresh (h : Heap.store) (items : Heap.ref)
  (p : CharacterMasteryItem -> bool)
  (cmp : CharacterMasteryItem -> CharacterMasteryItem -> Q) (count : Z) :
  h !! fst (Heap.bind (Heap.filter p items) (fun filtered =>
            Heap.bind (Heap.spread filtered) (fun copy =>
            Heap.bind (Heap.sort cmp copy) (fun sorted =>
            Heap.slice sorted 0 count))) h) = None.
Proof.
  unfold Heap.bind, Heap.filter, Heap.spread, Heap.read, Heap.alloc,
    Heap.slice, Heap.sort. cbn.
  assert (H1 : Heap.preserved h
                 (<[fresh (dom h) :=
                      List.filter p (default [] (h !! items))]> h)).
  { apply preserved_insert_fresh; [|apply fresh_None].
    intros r l Hr. exact Hr. }
  apply fresh_after.
  apply preserved_insert_fresh; [|apply (fresh_after h _ H1)].
  apply preserved_insert_fresh; [exact H1|].
  apply (fresh_after h _ H1).
Qed.

(** X17: which array a query returns.  With the filter ['all'],
    [filterCharacterMasteryByType] returns the input array itself and
    touches nothing, so sorting its result in place reorders the input.
    With a content type, and for the three top queries, the result is an
    array that was not there before, different from the input, so sorting
    the result in place changes no array that was there before. *)
Theorem query_results_alias (h : Heap.store) (items : Heap.ref)
  (l : list CharacterMasteryItem)
  (cmp : CharacterMasteryItem -> CharacterMasteryItem -> Q) :
  h !! items = Some l ->
  (Heap.filterCharacterMasteryByType items all h = (items, h)
   /\ snd (Heap.bind (Heap.filterCharacterMasteryByType items all)
             (Heap.sort cmp) h) !! items
      = Some (Array_sort cmp l))
  /\ forall (count minAttempts : Z) (t : ContentType) (sortBy : SortBy),
       let fresh_result (q : Heap.St Heap.ref) :=
         h !! fst (q h) = None
         /\ fst (q h) <> items
         /\ Heap.preserved h (snd (Heap.bind q (Heap.sort cmp) h)) in
       fresh_result (Heap.filterCharacterMasteryByType items (only t))
       /\ fresh_result
            (Heap.getTopDifficultCharacters items count minAttempts)
       /\ fresh_result (Heap.getTopMasteredCharacters items count)
       /\ fresh_result (Heap.getTopCharacters items count sortBy).
Proof.
  intros Hl. split.
  - split; [reflexivity|].
    unfold Heap.bind, Heap.sort. cbn. rewrite Hl. cbn.
    apply lookup_insert_eq.
  - intros count minAttempts t sortBy fresh_result.
    assert (Hf : forall q result,
               Heap.keeps_and_returns h q result ->
               h !! fst (q h) = None -> fresh_result q).
    { intros q result Hk Hn. split; [exact Hn|]. split.
      - intros E. rewrite E in Hn. congruence.
      - apply (sort_result_keeps h q result cmp Hk Hn). }
    split; [|split; [|split]].
    + apply (Hf _ _ (filter_keeps h items l _ Hl)).
      unfold Heap.filterCharacterMasteryByType, Heap.filter, Heap.bind,
        Heap.read. cbn. apply fresh_None.
    + apply (Hf _ _ (filter_sort_slice_keeps h items l _ _ count Hl)).
      apply filter_sort_slice_fresh.
    + apply (Hf _ _ (filter_sort_slice_keeps h items l _ _ count Hl)).
      apply filter_sort_slice_fresh.
    + apply (Hf _ _ (filter_spread_sort_slice_keeps h items l _ _ count Hl)).
      apply filter_spread_sort_slice_fresh.
Qed.

Lemma query_results_alias_witness :
  sample_store !! 1%positive = Some sample_items
  /\ snd (Heap.bind (Heap.filterCharacterMasteryByType 1%positive all)
            (Heap.sort by_accuracy_asc) sample_store) !! 1%positive
     = Some (Array_sort by_accuracy_asc sample_items)
  /\ fst (Heap.getTopMasteredCharacters 1%positive 5 sample_store)
     <> 1%positive.
Proof.
  assert (H : sample_store !! 1%positive = Some sample_items)
    by reflexivity.
  split; [exact H|].
  destruct (query_results_alias sample_store 1%positive sample_items
              by_accuracy_asc H) as ((_ & Ha) & Hq).
  split; [exact Ha|].
  destruct (Hq 5 5 kana difficult) as (_ & _ & (_ & Hm & _) & _).
  exact Hm.
Defined.
